(** * Golden-file test helper (package [golden]): model and properties

    The development follows [file.go]: the string and path helpers the
    package calls ([strings.SplitN], [strings.ReplaceAll],
    [filepath.Join], [filepath.Dir]), the operating-system calls
    ([os.MkdirAll], [os.WriteFile], [os.ReadFile], [os.Getenv]), the
    test-reporting interface [T], and on top of them the functions of
    the package itself.  Go strings are byte sequences and are modelled
    by [string]. *)

From Stdlib Require Import ZArith List Ascii String Bool Lia.
From stdpp Require Import base gmap strings.

Import ListNotations.
Local Open Scope string_scope.
Local Open Scope list_scope.

(** ** Strings *)

Module Strings.

(** [strings.ReplaceAll(s, old, new)] where [old] and [new] are one byte
    long, as in every call of the package. *)
Fixpoint ReplaceAll (s : string) (old new : ascii) : string :=
  match s with
  | EmptyString => EmptyString
  | String c rest =>
      String (if Ascii.eqb c old then new else c) (ReplaceAll rest old new)
  end.

(** [strings.Split(s, sep)] for a one-byte separator: the pieces between
    the separators, never an empty list. *)
Fixpoint Split (s : string) (sep : ascii) : list string :=
  match s with
  | EmptyString => [EmptyString]
  | String c rest =>
      if Ascii.eqb c sep then EmptyString :: Split rest sep
      else match Split rest sep with
           | [] => [String c EmptyString]
           | piece :: pieces => String c piece :: pieces
           end
  end.

(** [strings.SplitN(s, sep, 2)] for a one-byte separator: cut at the
    first separator only; a single piece when there is none. *)
Fixpoint SplitN2 (s : string) (sep : ascii) : list string :=
  match s with
  | EmptyString => [EmptyString]
  | String c rest =>
      if Ascii.eqb c sep then [EmptyString; rest]
      else match SplitN2 rest sep with
           | [piece] => [String c piece]
           | [piece; tail] => [String c piece; tail]
           | _ => [s]
           end
  end.

(** [strings.Join(elems, sep)]. *)
Fixpoint Join (elems : list string) (sep : string) : string :=
  match elems with
  | [] => ""
  | [e] => e
  | e :: rest => e +:+ sep +:+ Join rest sep
  end.

(** [strings.Contains(s, c)] for one byte. *)
Fixpoint ContainsByte (s : string) (c : ascii) : bool :=
  match s with
  | EmptyString => false
  | String d rest => Ascii.eqb d c || ContainsByte rest c
  end.

End Strings.

(** ** Paths (package [path/filepath], Unix) *)

Module Filepath.

Definition Separator : ascii := "/"%char.

Definition IsRooted (path : string) : bool :=
  match path with
  | String c _ => Ascii.eqb c Separator
  | EmptyString => false
  end.

(** The element loop of [filepath.Clean], on the elements between the
    separators.  [out] is the output so far, last element first.  An
    empty element and [.] are dropped; [..] removes the element before
    it when there is one that is not itself [..], is dropped at the root
    of a rooted path, and is kept otherwise. *)
Fixpoint cleanElems (rooted : bool) (out : list string) (elems : list string)
  : list string :=
  match elems with
  | [] => rev out
  | e :: rest =>
      if String.eqb e "" then cleanElems rooted out rest
      else if String.eqb e "." then cleanElems rooted out rest
      else if String.eqb e ".." then
        match out with
        | top :: below =>
            if String.eqb top ".." then cleanElems rooted (e :: out) rest
            else cleanElems rooted below rest
        | [] =>
            if rooted then cleanElems rooted out rest
            else cleanElems rooted [e] rest
        end
      else cleanElems rooted (e :: out) rest
  end.

(** [filepath.Clean]: the shortest path equivalent to [path] by lexical
    processing; the empty result is [.]. *)
Definition Clean (path : string) : string :=
  let rooted := IsRooted path in
  let out := Strings.Join (cleanElems rooted [] (Strings.Split path Separator)) "/" in
  if rooted then "/" +:+ out
  else if String.eqb out "" then "." else out.

(** [filepath.Join]: the elements from the first non-empty one on,
    joined by the separator and cleaned; the empty string when every
    element is empty. *)
Fixpoint Join (elem : list string) : string :=
  match elem with
  | [] => ""
  | e :: rest =>
      if String.eqb e "" then Join rest
      else Clean (Strings.Join elem "/")
  end.

(** The part of [path] up to and including its last separator. *)
Fixpoint uptoLastSeparator (path : string) : string :=
  match path with
  | EmptyString => EmptyString
  | String c rest =>
      if Strings.ContainsByte path Separator
      then String c (uptoLastSeparator rest)
      else EmptyString
  end.

(** [filepath.Dir]: all but the last element of [path], cleaned. *)
Definition Dir (path : string) : string := Clean (uptoLastSeparator path).

End Filepath.

(** ** Errors *)

Inductive Errno := ENOENT | ENOTDIR | EISDIR.

(** Go [error] values: [*fs.PathError] of the file operations,
    [*strconv.NumError] with [strconv.ErrSyntax], and any other error
    (of the HTTP transport or of a body reader) by its text. *)
Inductive error :=
| PathError (op path : string) (err : Errno)
| NumError (func num : string)
| OtherError (text : string).

(** ** The operating system (package [os])

    The file system maps the cleaned name of every existing entry to its
    node.  Names are resolved lexically, relative to the working
    directory; the working directory and the root always exist.  File
    modes are not modelled: the permission arguments are carried and
    ignored.  A call fails for what the entries show (a missing entry,
    a regular file or a directory in the way); the other reasons the
    operating system has (permissions, limits on names, storage) and a
    write that breaks off are outside the model, so the properties of a
    recreation take the results of [MkdirAll] and [WriteFile] as
    premises.  A [..] element is resolved lexically, not through the
    directory before it. *)

Inductive node := Directory | RegularFile (content : string).

Module Os.

(** The node at a cleaned name. *)
Definition entry (fs : gmap string node) (p : string) : option node :=
  if String.eqb p "." || String.eqb p "/" then Some Directory else fs !! p.

Definition stat (fs : gmap string node) (path : string) : option node :=
  entry fs (Filepath.Clean path).

(** The names of [elems] taken one after the other below [pre]. *)
Fixpoint prefixes (pre : string) (elems : list string) : list string :=
  match elems with
  | [] => []
  | e :: rest => (pre +:+ e) :: prefixes (pre +:+ e +:+ "/") rest
  end.

(** The directories on the way to [path], outermost first, [path]
    itself last. *)
Definition chain (path : string) : list string :=
  let rooted := Filepath.IsRooted path in
  prefixes (if rooted then "/" else "")
    (Filepath.cleanElems rooted [] (Strings.Split path Filepath.Separator)).

Definition isRegular (fs : gmap string node) (name : string) : bool :=
  match fs !! name with
  | Some (RegularFile _) => true
  | _ => false
  end.

Fixpoint mkdirChain (dirs : list string) (fs : gmap string node)
  : option error * gmap string node :=
  match dirs with
  | [] => (None, fs)
  | d :: rest =>
      match fs !! d with
      | Some Directory => mkdirChain rest fs
      | Some (RegularFile _) => (Some (PathError "mkdir" d ENOTDIR), fs)
      | None => mkdirChain rest (<[d := Directory]> fs)
      end
  end.

(** [os.MkdirAll]: creates the directory and the missing parents; no
    error when it exists already; fails where a regular file is in the
    way. *)
Definition MkdirAll (path : string) (perm : Z) (fs : gmap string node)
  : option error * gmap string node :=
  mkdirChain (chain path) fs.

(** [os.WriteFile]: creates the file or replaces its content; the
    directory of the file has to exist. *)
Definition WriteFile (name : string) (data : string) (perm : Z)
    (fs : gmap string node) : option error * gmap string node :=
  let p := Filepath.Clean name in
  match entry fs (Filepath.Dir p) with
  | None => (Some (PathError "open" name ENOENT), fs)
  | Some (RegularFile _) => (Some (PathError "open" name ENOTDIR), fs)
  | Some Directory =>
      match entry fs p with
      | Some Directory => (Some (PathError "open" name EISDIR), fs)
      | _ => (None, <[p := RegularFile data]> fs)
      end
  end.

(** [os.ReadFile]: the content of the file, or the error of the failed
    [open] or [read]. *)
Definition ReadFile (name : string) (fs : gmap string node)
  : string * option error :=
  match stat fs name with
  | Some (RegularFile content) => (content, None)
  | Some Directory => ("", Some (PathError "read" name EISDIR))
  | None =>
      if existsb (isRegular fs) (chain (Filepath.Dir (Filepath.Clean name)))
      then ("", Some (PathError "open" name ENOTDIR))
      else ("", Some (PathError "open" name ENOENT))
  end.

(** [os.Getenv]: the value of the variable, empty when it is unset. *)
Definition Getenv (key : string) (env : gmap string string) : string :=
  default "" (env !! key).

End Os.

(** ** Running a test

    A test runs in a world: the file system, the environment and what
    has been reported through [T] so far.  [FailNow] stops the test
    (as [testing.T.FailNow] does), so a computation either returns or
    is halted. *)

Inductive Value :=
| VString (s : string)
| VInt (n : Z)
| VError (e : error)
| VNotEqual (expected actual : string).

Inductive Event :=
| Logged (format : string) (args : list Value)
| Errored (format : string) (args : list Value)
| FailedNow.

Record World := {
  files : gmap string node;
  environ : gmap string string;
  reported : list Event;
}.

Definition report (ev : Event) (w : World) : World :=
  {| files := files w; environ := environ w; reported := reported w ++ [ev] |}.

Definition setFiles (fs : gmap string node) (w : World) : World :=
  {| files := fs; environ := environ w; reported := reported w |}.

Inductive Outcome (A : Type) :=
| Returned (a : A)
| Halted.
Arguments Returned {A} a.
Arguments Halted {A}.

Definition M (A : Type) : Type := World -> Outcome A * World.

#[export] Instance M_ret : MRet M := fun A a w => (Returned a, w).

#[export] Instance M_bind : MBind M := fun A B f m w =>
  match m w with
  | (Returned a, w') => f a w'
  | (Halted, w') => (Halted, w')
  end.

(** A file operation lifted to the world. *)
Definition fileOp (op : gmap string node -> option error * gmap string node)
  : M (option error) :=
  fun w => let '(err, fs) := op (files w) in (Returned err, setFiles fs w).

Definition MkdirAll (path : string) (perm : Z) : M (option error) :=
  fileOp (Os.MkdirAll path perm).

Definition WriteFile (name data : string) (perm : Z) : M (option error) :=
  fileOp (Os.WriteFile name data perm).

Definition ReadFile (name : string) : M (string * option error) :=
  fun w => (Returned (Os.ReadFile name (files w)), w).

Definition Getenv (key : string) : M string :=
  fun w => (Returned (Os.Getenv key (environ w)), w).

(** ** The test-reporting interface [T] *)

Record T := { name : string }.

Definition Logf (t : T) (format : string) (args : list Value) : M unit :=
  fun w => (Returned tt, report (Logged format args) w).

Definition Errorf (t : T) (format : string) (args : list Value) : M unit :=
  fun w => (Returned tt, report (Errored format args) w).

Definition FailNow (t : T) : M unit :=
  fun w => (Halted, report FailedNow w).

Definition Name (t : T) : M string := mret (name t).

Definition Helper (t : T) : M unit := mret tt.

(** ** Library functions the package calls *)

(** [strconv.ParseBool]: accepts 1, t, T, TRUE, true, True, 0, f, F,
    FALSE, false, False; any other value is a syntax error. *)
Definition ParseBool (str : string) : bool * option error :=
  if existsb (String.eqb str) ["1"; "t"; "T"; "TRUE"; "true"; "True"]
  then (true, None)
  else if existsb (String.eqb str) ["0"; "f"; "F"; "FALSE"; "false"; "False"]
  then (false, None)
  else (false, Some (NumError "ParseBool" str)).

(** [assert.Equal] of testify on two strings: on a mismatch the report
    ("Not equal:", both values and their diff) goes to [t.Errorf] and
    the result is false; [FailNow] is not called.  The rendering of the
    report is testify's and is stood for by [VNotEqual]. *)
Definition assert_Equal (t : T) (expected actual : string) : M bool :=
  Helper t;;
  if String.eqb expected actual then mret true
  else
    Helper t;;
    Errorf t "\n%s" [VNotEqual expected actual];;
    mret false.

(** A response body: the bytes not read yet, and the error the reader
    ends with instead of end-of-file, if any. *)
Record Reader := { unread : string; failure : option error }.

(** [io.ReadAll]: everything up to end-of-file or the error, which
    drains the reader. *)
Definition ReadAll (r : Reader) : string * option error * Reader :=
  (unread r, failure r, {| unread := ""; failure := failure r |}).

(** [io.NopCloser(bytes.NewReader(b))]. *)
Definition NewReader (b : string) : Reader := {| unread := b; failure := None |}.

Record Response := { StatusCode : Z; Body : Reader }.

Definition setBody (body : Reader) (resp : Response) : Response :=
  {| StatusCode := StatusCode resp; Body := body |}.

Record HTTPRequest := { Method : string; URL : string }.

(** ** Package [golden] *)

(** [Client]: anything with a [Do] method.  On an error the response is
    not looked at. *)
Record Client := { Do : HTTPRequest -> M (Response * option error) }.

(** The variadic [msgAndArgs] of [Equal] is empty in every call of the
    package and is left out. *)
Record FileHandler := {
  FileName : T -> M string;
  ShouldRecreate : T -> M bool;
  ProcessContent : option (T -> string -> M string);
  Equal : T -> string -> string -> M bool;
}.

Definition NoError (t : T) (err : option error) (msg : string) : M unit :=
  Helper t;;
  match err with
  | Some e =>
      Errorf t "%s: %s" [VString msg; VError e];;
      FailNow t
  | None => mret tt
  end.

Definition EqualWithDiff (t : T) (expected actual : string) : M bool :=
  assert_Equal t expected actual.

Definition ParseRecreateFromEnv (t : T) : M bool :=
  str ← Getenv "GOLDEN_FILES_RECREATE";
  if String.eqb str "" then mret false
  else
    let '(overwrite, err) := ParseBool str in
    NoError t err
      ("failed to parse GOLDEN_FILES_RECREATE env variable: '" +:+ str +:+ "' to bool");;
    mret overwrite.

Definition TestNameToFilePath (t : T) : M string :=
  n ← Name t;
  let split := Strings.SplitN2 n "/" in
  mainTestName ← Name t;
  testName ← Name t;
  let '(mainTestName, testName) :=
    match split with
    | [first; second] => (first, Strings.ReplaceAll second "/" "_")
    | _ => (mainTestName, testName)
    end in
  mret (Strings.ReplaceAll
          (Filepath.Join ["./testdata/"; mainTestName; testName +:+ ".golden"])
          " " "_").

Definition FileHandler_loadAndSaveFile (h : FileHandler) (t : T) (data : string)
  : M string :=
  fileName ← FileName h t;
  recreate ← ShouldRecreate h t;
  (if (recreate : bool) then
     Logf t "recreating golden file: %s" [VString fileName];;
     err ← MkdirAll (Filepath.Dir fileName) 0x1ed%Z (* 0o755 *);
     NoError t err "failed to create testdata directory for golden file";;
     err ← WriteFile fileName data 0x180%Z (* 0o600 *);
     NoError t err "failed to write golden file"
   else mret tt);;
  '(b, err) ← ReadFile fileName;
  NoError t err "failed to read golden file";;
  mret b.

(** The first statement of [Assert]: [data] becomes
    [h.ProcessContent(t, data)] when the hook is set. *)
Definition processContent (h : FileHandler) (t : T) (data : string) : M string :=
  match ProcessContent h with
  | Some process => process t data
  | None => mret data
  end.

Definition FileHandler_Assert (h : FileHandler) (t : T) (data : string) : M bool :=
  Helper t;;
  data ← processContent h t data;
  expected ← FileHandler_loadAndSaveFile h t data;
  Equal h t expected data.

Definition FileHandler_Request (h : FileHandler) (t : T) (client : Client)
    (req : HTTPRequest) (expectedStatusCode : Z) : M (Response * bool) :=
  '(resp, err) ← Do client req;
  NoError t err "client.Do failed";;
  ok ← (if Z.eqb (StatusCode resp) expectedStatusCode then mret true
        else
          Errorf t "expected status code %d, got %d"
            [VInt expectedStatusCode; VInt (StatusCode resp)];;
          mret false);
  let '(body, err, drained) := ReadAll (Body resp) in
  let resp := setBody drained resp in
  NoError t err "reading response body failed";;
  let resp := setBody (NewReader body) resp in
  matches ← FileHandler_Assert h t body;
  mret (resp, matches && ok).

Definition DefaultHandler : FileHandler := {|
  FileName := TestNameToFilePath;
  ShouldRecreate := ParseRecreateFromEnv;
  Equal := EqualWithDiff;
  ProcessContent := None;
|}.

Definition Request (t : T) (client : Client) (req : HTTPRequest)
    (expectedStatusCode : Z) : M (Response * bool) :=
  FileHandler_Request DefaultHandler t client req expectedStatusCode.

Definition Assert (t : T) (data : string) : M bool :=
  FileHandler_Assert DefaultHandler t data.

(** ** The layout of the golden files, in the words of the documentation

    The top-level test name is the identifier up to its first slash; the
    file is named after the sub-test names joined by an underscore, or
    after the top-level name when there is no sub-test. *)

Definition TopLevelName (identifier : string) : string :=
  hd "" (Strings.Split identifier "/").

Definition RestJoinedByUnderscore (identifier : string) : string :=
  match Strings.Split identifier "/" with
  | [] => ""
  | [top] => top
  | _ :: subs => Strings.Join subs "_"
  end.

(** The world [w] after the second statement of [Request], the
    comparison of the status codes: a mismatch is reported through
    [Errorf]. *)
Definition statusChecked (expectedStatusCode : Z) (resp : Response) (w : World) : World :=
  if Z.eqb (StatusCode resp) expectedStatusCode then w
  else report (Errored "expected status code %d, got %d"
                 [VInt expectedStatusCode; VInt (StatusCode resp)]) w.

(** ** Sample tests, for the examples below *)

Definition emptyWorld : World := {| files := ∅; environ := ∅; reported := [] |}.

(** A recreate policy that was injected, with a fixed answer. *)
Definition always (recreate : bool) : T -> M bool := fun _ => mret recreate.

(** A content transform: appends an exclamation mark. *)
Definition exclaim : T -> string -> M string := fun _ data => mret (data +:+ "!").

(** The default handler with another recreate policy and content
    transform, as the tests of the package build it. *)
Definition handlerWith (policy : T -> M bool)
    (process : option (T -> string -> M string)) : FileHandler := {|
  FileName := TestNameToFilePath;
  ShouldRecreate := policy;
  ProcessContent := process;
  Equal := EqualWithDiff;
|}.

(** A client whose server answers every request with [status] and
    [body], and one that cannot connect. *)
Definition serverClient (status : Z) (body : string) : Client := {|
  Do := fun _ => mret ({| StatusCode := status; Body := NewReader body |}, None);
|}.

Definition brokenClient : Client := {|
  Do := fun _ => mret ({| StatusCode := 0; Body := NewReader "" |},
                       Some (OtherError "connection refused"));
|}.

(** The world of the test of a mismatch: the golden file of the test
    "TestSomeOtherString" holds "some string". *)
Definition storedWorld : World := {|
  files :=
    <["testdata/TestSomeOtherString/TestSomeOtherString.golden" := RegularFile "some string"]>
      (<["testdata/TestSomeOtherString" := Directory]>
         (<["testdata" := Directory]> ∅));
  environ := ∅;
  reported := [];
|}.

(** The world of a request test whose golden file was recreated through
    the transform [exclaim]: it holds "body!". *)
Definition transformedWorld : World := {|
  files :=
    <["testdata/TestRequest/TestRequest.golden" := RegularFile "body!"]>
      (<["testdata/TestRequest" := Directory]> (<["testdata" := Directory]> ∅));
  environ := ∅;
  reported := [];
|}.

(** The world after the "create" pass of the package's [TestFile] on the
    test "TestFunc/subtest". *)
Definition createdWorld : World := {|
  files :=
    <["testdata/TestFunc/subtest.golden" := RegularFile "other data"]>
      (<["testdata/TestFunc" := Directory]> (<["testdata" := Directory]> ∅));
  environ := ∅;
  reported := [];
|}.

Definition getRequest : HTTPRequest := {| Method := "GET"; URL := "http://127.0.0.1:8080/" |}.

(** ** The earlier revision of the package (second part of [file.go])

    The functions [file], [File] and [Equal] of the revision that
    [file.go] also holds.  Its [Request] compares the status codes with
    [assert.Equal] on integers and is not modelled. *)

Module Legacy.

(** [require.NoError] of testify: on an error the failure report, made
    of the error and the message, goes to [t.Errorf], and [t.FailNow] is
    called.  The rendering of the report is testify's and is stood for
    by the two values. *)
Definition require_NoError (t : T) (err : option error) (msg : string) : M unit :=
  Helper t;;
  match err with
  | Some e =>
      Errorf t "\n%s" [VError e; VString msg];;
      FailNow t
  | None => mret tt
  end.

(** The package variable [overwrite]: OVERWRITE_GOLDEN_FILES parsed once,
    in the environment the package is loaded in; the error of the
    parsing is dropped. *)
Definition overwrite (loaded : gmap string string) : bool :=
  fst (ParseBool (Os.Getenv "OVERWRITE_GOLDEN_FILES" loaded)).

Definition file (t : T) (data : string) (recreate : bool) : M string :=
  Helper t;;
  n ← Name t;
  let split := Strings.SplitN2 n "/" in
  mainTestName ← Name t;
  testName ← Name t;
  let '(mainTestName, testName) :=
    match split with
    | [first; second] => (first, Strings.ReplaceAll second "/" "_")
    | _ => (mainTestName, testName)
    end in
  let folderName := "./testdata/" +:+ mainTestName in
  let fileName :=
    Strings.ReplaceAll (folderName +:+ "/" +:+ testName +:+ ".golden") " " "_" in
  (if (recreate : bool) then
     Logf t "recreating golden file: %s" [VString fileName];;
     err ← MkdirAll folderName 0x1ed%Z (* 0o755 *);
     require_NoError t err "failed to create testdata directory for golden file";;
     err ← WriteFile fileName data 0x180%Z (* 0o600 *);
     require_NoError t err "failed to write golden file"
   else mret tt);;
  '(b, err) ← ReadFile fileName;
  require_NoError t err "failed to read golden file";;
  mret b.

Definition File (loaded : gmap string string) (t : T) (data : string) : M string :=
  Helper t;;
  file t data (overwrite loaded).

Definition Equal (loaded : gmap string string) (t : T) (data : string) : M bool :=
  Helper t;;
  expected ← File loaded t data;
  assert_Equal t expected data.

End Legacy.

(** ** Measures and shorthands of the statements below *)

(** The number of occurrences of the byte [c] in [s]
    ([strings.Count] for one byte). *)
Fixpoint countByte (s : string) (c : ascii) : nat :=
  match s with
  | EmptyString => 0
  | String d rest => (if Ascii.eqb d c then 1 else 0) + countByte rest c
  end.

(** The golden file of a top-level name and a file stem, before the
    spaces are replaced: below [testdata/<top>], directly below
    [testdata] for an empty or [.] top-level name, and beside [testdata]
    for [..]. *)
Definition layout (top stem : string) : string :=
  if String.eqb top "" || String.eqb top "." then "testdata/" +:+ stem +:+ ".golden"
  else if String.eqb top ".." then stem +:+ ".golden"
  else "testdata/" +:+ top +:+ "/" +:+ stem +:+ ".golden".

(** The directory and the golden file of an identifier with a top-level
    name of its own, as [TestNameToFilePath] spells them. *)
Definition goldenDir (identifier : string) : string :=
  "testdata/" +:+ Strings.ReplaceAll (TopLevelName identifier) " " "_".

Definition goldenPath (identifier : string) : string :=
  goldenDir identifier +:+ "/" +:+
  Strings.ReplaceAll (RestJoinedByUnderscore identifier) " " "_" +:+ ".golden".

(** Unfolds the sequencing of computations. *)
Ltac run := cbv [mbind M_bind mret M_ret Name Helper].

(** * Properties *)

(** ** Strings and paths *)

Section StringFacts.

Import Strings.

Lemma ContainsByte_app (a b : string) (c : ascii) :
  ContainsByte (a +:+ b) c = ContainsByte a c || ContainsByte b c.
Proof.
  induction a as [|d a IH]; simpl; [reflexivity|].
  rewrite IH. apply orb_assoc.
Qed.

Lemma ContainsByte_ReplaceAll (s : string) (old new : ascii) :
  old <> new -> ContainsByte (ReplaceAll s old new) old = false.
Proof.
  intros Hne. induction s as [|c s IH]; simpl; [reflexivity|].
  rewrite IH, orb_false_r.
  destruct (Ascii.eqb c old) eqn:E; [|exact E].
  apply Ascii.eqb_neq. congruence.
Qed.

Lemma Split_not_nil (s : string) (sep : ascii) : Split s sep <> [].
Proof.
  destruct s as [|c s]; simpl; [discriminate|].
  destruct (Ascii.eqb c sep); [discriminate|].
  destruct (Split s sep); discriminate.
Qed.

Lemma Split_nosep (a : string) (sep : ascii) :
  ContainsByte a sep = false -> Split a sep = [a].
Proof.
  induction a as [|c a IH]; simpl; [reflexivity|].
  intros H. apply orb_false_elim in H as [Hc Ha].
  rewrite Hc, (IH Ha). reflexivity.
Qed.

Lemma Split_sep (a b : string) (sep : ascii) :
  ContainsByte a sep = false ->
  Split (a +:+ String sep b) sep = a :: Split b sep.
Proof.
  induction a as [|c a IH]; simpl.
  - intros _. rewrite Ascii.eqb_refl. reflexivity.
  - intros H. apply orb_false_elim in H as [Hc Ha].
    rewrite Hc, (IH Ha). reflexivity.
Qed.

(** [SplitN2] cuts at the first separator. *)
Lemma SplitN2_cases (s : string) (sep : ascii) :
  (ContainsByte s sep = false /\ SplitN2 s sep = [s]) \/
  (exists a b, s = a +:+ String sep b /\ ContainsByte a sep = false /\
               SplitN2 s sep = [a; b]).
Proof.
  induction s as [|c s IH]; simpl.
  - left. split; reflexivity.
  - destruct (Ascii.eqb c sep) eqn:E.
    + right. exists "", s. apply Ascii.eqb_eq in E. subst c.
      repeat split; reflexivity.
    + destruct IH as [[Hs ->]|(a & b & -> & Ha & ->)].
      * left. split; [exact Hs|reflexivity].
      * right. exists (String c a), b. simpl. rewrite E, Ha.
        repeat split; reflexivity.
Qed.

Lemma Join_Split (s : string) (old new : ascii) :
  Join (Split s old) (String new "") = ReplaceAll s old new.
Proof.
  induction s as [|c s IH]; simpl; [reflexivity|].
  destruct (Ascii.eqb c old) eqn:E.
  - rewrite <- IH. pose proof (Split_not_nil s old) as Hn.
    destruct (Split s old) as [|p ps]; [congruence|]. reflexivity.
  - rewrite <- IH. pose proof (Split_not_nil s old) as Hn.
    destruct (Split s old) as [|p ps]; [congruence|].
    destruct ps; reflexivity.
Qed.

End StringFacts.

Section PathFacts.

Import Strings Filepath.

Lemma length_append (a b : string) :
  String.length (a +:+ b) = String.length a + String.length b.
Proof. induction a as [|c a IH]; simpl; [reflexivity|]. rewrite IH. reflexivity. Qed.

(** A name with the suffix [.golden] is none of the short elements that
    [Clean] treats specially. *)
Lemma golden_name_long (stem e : string) :
  String.length e < 7 -> String.eqb (stem +:+ ".golden") e = false.
Proof.
  intros Hlen. apply String.eqb_neq. intros Heq.
  apply (f_equal String.length) in Heq.
  rewrite length_append in Heq. simpl in Heq. lia.
Qed.

Lemma Split_joined (top file : string) :
  ContainsByte top "/" = false ->
  ContainsByte file "/" = false ->
  Split ("./testdata/" +:+ "/" +:+ top +:+ "/" +:+ file) Separator
  = ["."; "testdata"; ""; top; file].
Proof.
  intros Htop Hfile.
  change ("./testdata/" +:+ "/" +:+ top +:+ "/" +:+ file)
    with ("." +:+ String "/" ("testdata" +:+ String "/"
            ("" +:+ String "/" (top +:+ String "/" file)))).
  unfold Separator.
  rewrite !Split_sep by (assumption || reflexivity).
  rewrite (Split_nosep file) by assumption.
  reflexivity.
Qed.

(** What [filepath.Join] makes of the three elements that
    [TestNameToFilePath] passes, for every top-level name: the leading
    [./] and the doubled separator are cleaned away, an empty or [.]
    top-level name leaves no directory of its own, and [..] climbs out
    of [testdata]. *)
Lemma Join_testdata (top stem : string) :
  ContainsByte top "/" = false ->
  ContainsByte stem "/" = false ->
  Join ["./testdata/"; top; stem +:+ ".golden"] =
    if String.eqb top "" || String.eqb top "." then "testdata/" +:+ stem +:+ ".golden"
    else if String.eqb top ".." then stem +:+ ".golden"
    else "testdata/" +:+ top +:+ "/" +:+ stem +:+ ".golden".
Proof.
  intros Htop Hstem.
  assert (Hfile : ContainsByte (stem +:+ ".golden") "/" = false).
  { rewrite ContainsByte_app, Hstem. reflexivity. }
  unfold Join. cbn [String.eqb Ascii.eqb Bool.eqb].
  unfold Clean.
  change (Strings.Join ["./testdata/"; top; stem +:+ ".golden"] "/")
    with ("./testdata/" +:+ "/" +:+ top +:+ "/" +:+ (stem +:+ ".golden")).
  rewrite (Split_joined top _ Htop Hfile).
  change (IsRooted ("./testdata/" +:+ "/" +:+ top +:+ "/" +:+ (stem +:+ ".golden")))
    with false.
  cbn [cleanElems String.eqb Ascii.eqb Bool.eqb].
  rewrite !(golden_name_long stem) by (simpl; lia).
  destruct (String.eqb top "") eqn:E1; [cbn; reflexivity|].
  destruct (String.eqb top ".") eqn:E2; [cbn; reflexivity|].
  destruct (String.eqb top "..") eqn:E3.
  - cbn. destruct (String.eqb (stem +:+ ".golden") "") eqn:E4; [|reflexivity].
    rewrite golden_name_long in E4 by (simpl; lia). discriminate.
  - cbn. reflexivity.
Qed.

End PathFacts.

(** The cleaning rules on the cases of the documentation of
    [filepath.Clean], [filepath.Dir] and [filepath.Join]. *)
Example Clean_examples :
  map Filepath.Clean
    [""; "abc"; "abc/def"; "a/b/c"; "."; ".."; "../.."; "../../abc"; "/abc"; "/";
     "abc/"; "abc/def/"; "./"; "../"; "/abc/"; "abc//def//ghi"; "//abc";
     "abc/./def"; "/./abc/def"; "abc/."; "abc/def/ghi/../jkl"; "abc/def/../ghi/../jkl";
     "abc/def/.."; "abc/def/../.."; "/abc/def/../.."; "abc/def/../../..";
     "/abc/def/../../.."; "abc/def/../../../ghi/jkl/../../../mno";
     "/../abc"; "abc/./../def"; "abc//./../def"; "abc/../../././../def"]
  = ["."; "abc"; "abc/def"; "a/b/c"; "."; ".."; "../.."; "../../abc"; "/abc"; "/";
     "abc"; "abc/def"; "."; ".."; "/abc"; "abc/def/ghi"; "/abc";
     "abc/def"; "/abc/def"; "abc"; "abc/def/jkl"; "abc/jkl";
     "abc"; "."; "/"; "..";
     "/"; "../../mno";
     "/abc"; "def"; "def"; "../../def"].
Proof. reflexivity. Qed.

Example Dir_examples :
  map Filepath.Dir [""; "."; "/."; "/"; "/foo"; "x/"; "abc"; "abc/def"; "a/b/.x";
                    "a/b/c."; "a/b/c.x"]
  = ["."; "."; "/"; "/"; "/"; "x"; "."; "abc"; "a/b"; "a/b"; "a/b"].
Proof. reflexivity. Qed.

Example Join_examples :
  map Filepath.Join
    [[]; [""]; ["/"]; ["a"]; ["a"; "b"]; ["a"; ""]; [""; "b"]; ["/"; "a"]; ["/"; "a/b"];
     ["/"; ""]; ["/a"; "b"]; ["a"; "/b"]; ["/a"; "/b"]; ["a/"; "b"]; ["a/"; ""];
     [""; ""]; ["/"; "a"; "b"]]
  = [""; ""; "/"; "a"; "a/b"; "a"; "b"; "/a"; "/a/b";
     "/"; "/a/b"; "a/b"; "/a/b"; "a/b"; "a";
     ""; "/a/b"].
Proof. reflexivity. Qed.

(** The table of the package's [TestFile]. *)
Example TestFile_paths :
  map (fun n => fst (TestNameToFilePath {| name := n |} emptyWorld))
    ["TestFunc/subtest"; "TestFunc/subtest_other"; "TestFunc/subtest/nested"; "TestFunc"]
  = map Returned
      ["testdata/TestFunc/subtest.golden"; "testdata/TestFunc/subtest_other.golden";
       "testdata/TestFunc/subtest_nested.golden"; "testdata/TestFunc/TestFunc.golden"].
Proof. reflexivity. Qed.

(** ** Running computations *)

Lemma bind_returned {A B : Type} (m : M A) (f : A -> M B) (w w' : World) (a : A) :
  m w = (Returned a, w') -> (m ≫= f) w = f a w'.
Proof. intros H. unfold mbind, M_bind. rewrite H. reflexivity. Qed.

Lemma bind_halted {A B : Type} (m : M A) (f : A -> M B) (w w' : World) :
  m w = (Halted, w') -> (m ≫= f) w = (Halted, w').
Proof. intros H. unfold mbind, M_bind. rewrite H. reflexivity. Qed.

Lemma ret_returned {A : Type} (a : A) (w : World) :
  (mret a : M A) w = (Returned a, w).
Proof. reflexivity. Qed.

(** ** Path resolution *)

Lemma layout_of_identifier (n : string) :
  exists top stem,
    TopLevelName n = top /\ RestJoinedByUnderscore n = stem /\
    Strings.ContainsByte top "/" = false /\
    Strings.ContainsByte stem "/" = false /\
    forall w, TestNameToFilePath {| name := n |} w =
      (Returned (Strings.ReplaceAll
                   (Filepath.Join ["./testdata/"; top; stem +:+ ".golden"]) " " "_"), w).
Proof.
  unfold TopLevelName, RestJoinedByUnderscore, TestNameToFilePath.
  destruct (SplitN2_cases n "/") as [[Hn Hsplit]|(a & b & -> & Ha & Hsplit)].
  - exists n, n. rewrite (Split_nosep n "/" Hn).
    repeat split; try assumption.
    intros w. run. cbn [name]. rewrite Hsplit. reflexivity.
  - exists a, (Strings.ReplaceAll b "/" "_").
    rewrite (Split_sep a b "/" Ha). cbn [hd].
    pose proof (Split_not_nil b "/") as Hne.
    pose proof (Join_Split b "/" "_") as Hjoin.
    destruct (Strings.Split b "/") as [|p ps] eqn:Hb; [congruence|].
    repeat split; try assumption.
    + apply ContainsByte_ReplaceAll. discriminate.
    + intros w. run. cbn [name]. rewrite Hsplit. reflexivity.
Qed.

(** The resolver returns in every world what it returns in one, and
    leaves the world as it is. *)
Lemma TestNameToFilePath_frame (t : T) (w w' : World) :
  TestNameToFilePath t w' = (fst (TestNameToFilePath t w), w').
Proof.
  destruct t as [n].
  destruct (layout_of_identifier n) as (top & stem & _ & _ & _ & _ & Hrun).
  rewrite !Hrun. reflexivity.
Qed.

(** C2, as the code has it: for every identifier whose top-level name is
    not empty, [.] or [..], the path resolver returns
    [testdata/<TopLevelName>/<RestJoinedByUnderscore>.golden], the
    cleaned spelling of the documented location without the leading
    [./], with every space replaced by an underscore; the identifiers
    "Top", "Top/Sub", "Top/Sub/Nested" and "Top/Sub Name" resolve to
    "testdata/Top/Top.golden", "testdata/Top/Sub.golden",
    "testdata/Top/Sub_Nested.golden" and "testdata/Top/Sub_Name.golden". *)
Theorem TestNameToFilePath_layout :
  (forall (t : T) (w : World),
      TopLevelName (name t) <> "" ->
      TopLevelName (name t) <> "." ->
      TopLevelName (name t) <> ".." ->
      TestNameToFilePath t w =
        (Returned (Strings.ReplaceAll
                     ("testdata/" +:+ TopLevelName (name t) +:+ "/" +:+
                      RestJoinedByUnderscore (name t) +:+ ".golden") " " "_"), w)) /\
  (forall w, TestNameToFilePath {| name := "Top" |} w
             = (Returned "testdata/Top/Top.golden", w)) /\
  (forall w, TestNameToFilePath {| name := "Top/Sub" |} w
             = (Returned "testdata/Top/Sub.golden", w)) /\
  (forall w, TestNameToFilePath {| name := "Top/Sub/Nested" |} w
             = (Returned "testdata/Top/Sub_Nested.golden", w)) /\
  (forall w, TestNameToFilePath {| name := "Top/Sub Name" |} w
             = (Returned "testdata/Top/Sub_Name.golden", w)).
Proof.
  split; [|repeat split; intros w; reflexivity].
  intros [n] w. cbn [name]. intros H1 H2 H3.
  destruct (layout_of_identifier n) as (top & stem & <- & <- & Htop & Hstem & Hrun).
  rewrite Hrun, (Join_testdata _ _ Htop Hstem).
  apply String.eqb_neq in H1, H2, H3. rewrite H1, H2, H3. reflexivity.
Qed.

(** The layout theorem at the identifier "TestFunc/sub test/nested". *)
Lemma TestNameToFilePath_layout_witness :
  TestNameToFilePath {| name := "TestFunc/sub test/nested" |}
    {| files := ∅; environ := ∅; reported := [] |}
  = (Returned "testdata/TestFunc/sub_test_nested.golden",
     {| files := ∅; environ := ∅; reported := [] |}).
Proof.
  destruct TestNameToFilePath_layout as [general _].
  apply (general {| name := "TestFunc/sub test/nested" |}
           {| files := ∅; environ := ∅; reported := [] |});
    vm_compute; discriminate.
Defined.

(** C2 as the specification words it fails: the resolved path of "Top"
    does not start with [./]. *)
Lemma TestNameToFilePath_no_dot_slash :
  fst (TestNameToFilePath {| name := "Top" |}
         {| files := ∅; environ := ∅; reported := [] |})
  = Returned "testdata/Top/Top.golden" /\
  fst (TestNameToFilePath {| name := "Top" |}
         {| files := ∅; environ := ∅; reported := [] |})
  <> Returned "./testdata/Top/Top.golden".
Proof. split; [reflexivity|discriminate]. Qed.

(** C9: path resolution is a total function of the identifier alone: one
    function of the identifier gives the result of the resolver in
    every world, the resolver always returns (it never halts the test),
    and it leaves the file system, the environment and the test's
    reports as they were. *)
Theorem TestNameToFilePath_pure :
  exists resolve : string -> string,
    forall (t : T) (w : World),
      TestNameToFilePath t w = (Returned (resolve (name t)), w).
Proof.
  exists (fun n =>
    Strings.ReplaceAll
      (Filepath.Join ["./testdata/"; TopLevelName n;
                      RestJoinedByUnderscore n +:+ ".golden"]) " " "_").
  intros [n] w. cbn [name].
  destruct (layout_of_identifier n) as (top & stem & <- & <- & _ & _ & Hrun).
  apply Hrun.
Qed.

(** ** File operations *)

Lemma WriteFile_stores (fileName data : string) (perm : Z) (fs fs' : gmap string node) :
  Os.WriteFile fileName data perm fs = (None, fs') ->
  fs' = <[Filepath.Clean fileName := RegularFile data]> fs /\
  Os.entry fs' (Filepath.Clean fileName) = Some (RegularFile data).
Proof.
  unfold Os.WriteFile.
  destruct (Os.entry fs (Filepath.Dir (Filepath.Clean fileName))) as [[|?]|];
    try discriminate.
  unfold Os.entry at 1.
  destruct (String.eqb (Filepath.Clean fileName) "." ||
            String.eqb (Filepath.Clean fileName) "/") eqn:Hspecial;
    [discriminate|].
  intros Hw.
  assert (fs' = <[Filepath.Clean fileName := RegularFile data]> fs) as ->.
  { destruct (fs !! Filepath.Clean fileName) as [[|?]|]; congruence. }
  split; [reflexivity|].
  unfold Os.entry. rewrite Hspecial. apply lookup_insert_eq.
Qed.

(** A file that was written reads back as it was written. *)
Lemma ReadFile_WriteFile (fileName data : string) (perm : Z) (fs fs' : gmap string node) :
  Os.WriteFile fileName data perm fs = (None, fs') ->
  Os.ReadFile fileName fs' = (data, None).
Proof.
  intros Hw. apply WriteFile_stores in Hw as [_ Hentry].
  unfold Os.ReadFile, Os.stat. rewrite Hentry. reflexivity.
Qed.

(** Where nothing exists under the name, [ReadFile] fails in [open],
    and the error names the file. *)
Lemma ReadFile_missing (fileName : string) (fs : gmap string node) :
  Os.stat fs fileName = None ->
  exists errno, Os.ReadFile fileName fs = ("", Some (PathError "open" fileName errno)).
Proof.
  intros Hstat. unfold Os.ReadFile. rewrite Hstat.
  destruct (existsb _ _); eauto.
Qed.

(** ** [NoError] *)

Lemma NoError_nil (t : T) (msg : string) (w : World) :
  NoError t None msg w = (Returned tt, w).
Proof. reflexivity. Qed.

Lemma NoError_error (t : T) (e : error) (msg : string) (w : World) :
  NoError t (Some e) msg w =
    (Halted, report FailedNow (report (Errored "%s: %s" [VString msg; VError e]) w)).
Proof. reflexivity. Qed.

(** ** [loadAndSaveFile] *)

Section LoadAndSave.

Variables (h : FileHandler) (t : T) (data fileName : string).
Variables (w w1 w2 : World).
Hypothesis HfileName : FileName h t w = (Returned fileName, w1).

(** Without recreation the function is the read of the file. *)
Lemma loadAndSaveFile_read :
  ShouldRecreate h t w1 = (Returned false, w2) ->
  FileHandler_loadAndSaveFile h t data w =
    match Os.ReadFile fileName (files w2) with
    | (b, None) => (Returned b, w2)
    | (_, Some e) =>
        (Halted, report FailedNow
                   (report (Errored "%s: %s"
                              [VString "failed to read golden file"; VError e]) w2))
    end.
Proof.
  intros Hrecreate. unfold FileHandler_loadAndSaveFile.
  rewrite (bind_returned _ _ _ _ _ HfileName).
  rewrite (bind_returned _ _ _ _ _ Hrecreate).
  run. unfold ReadFile.
  destruct (Os.ReadFile fileName (files w2)) as [b [e|]]; reflexivity.
Qed.

(** With recreation, and the directory made and the file written without
    an error, the function logs, writes [data] and returns it. *)
Lemma loadAndSaveFile_recreate (fs1 fs2 : gmap string node) :
  ShouldRecreate h t w1 = (Returned true, w2) ->
  Os.MkdirAll (Filepath.Dir fileName) 0x1ed (files w2) = (None, fs1) ->
  Os.WriteFile fileName data 0x180 fs1 = (None, fs2) ->
  FileHandler_loadAndSaveFile h t data w =
    (Returned data,
     setFiles fs2 (report (Logged "recreating golden file: %s" [VString fileName]) w2)).
Proof.
  intros Hrecreate Hmkdir Hwrite. unfold FileHandler_loadAndSaveFile.
  rewrite (bind_returned _ _ _ _ _ HfileName).
  rewrite (bind_returned _ _ _ _ _ Hrecreate).
  run. unfold Logf, MkdirAll, WriteFile, ReadFile, fileOp. cbn [files report setFiles].
  rewrite Hmkdir. cbn [files setFiles]. rewrite NoError_nil.
  cbn [files setFiles]. rewrite Hwrite. cbn [files setFiles]. rewrite NoError_nil.
  cbn [files setFiles]. rewrite (ReadFile_WriteFile _ _ _ _ _ Hwrite).
  rewrite NoError_nil. reflexivity.
Qed.

End LoadAndSave.

(** ** [Assert] *)

Lemma EqualWithDiff_same (t : T) (s : string) (w : World) :
  EqualWithDiff t s s w = (Returned true, w).
Proof.
  unfold EqualWithDiff, assert_Equal. run. rewrite String.eqb_refl. reflexivity.
Qed.

Lemma EqualWithDiff_differ (t : T) (expected actual : string) (w : World) :
  expected <> actual ->
  EqualWithDiff t expected actual w =
    (Returned false, report (Errored "\n%s" [VNotEqual expected actual]) w).
Proof.
  intros Hne. apply String.eqb_neq in Hne.
  unfold EqualWithDiff, assert_Equal. run. rewrite Hne. reflexivity.
Qed.

(** [Assert] transforms the data, loads the file with the transformed
    data and compares the two. *)
Lemma Assert_steps (h : FileHandler) (t : T) (data processed : string) (w w1 : World) :
  processContent h t data w = (Returned processed, w1) ->
  FileHandler_Assert h t data w =
    (FileHandler_loadAndSaveFile h t processed ≫=
       fun expected => Equal h t expected processed) w1.
Proof.
  intros Hprocess. unfold FileHandler_Assert.
  change (Helper t ≫= _) with
    (processContent h t data ≫= fun data' =>
       FileHandler_loadAndSaveFile h t data' ≫=
         fun expected => Equal h t expected data').
  rewrite (bind_returned _ _ _ _ _ Hprocess). reflexivity.
Qed.

Lemma WriteFile_any_content (fileName a b : string) (perm : Z) (fs : gmap string node) :
  fst (Os.WriteFile fileName a perm fs) = None ->
  Os.WriteFile fileName b perm fs
  = (None, <[Filepath.Clean fileName := RegularFile b]> fs).
Proof.
  unfold Os.WriteFile.
  destruct (Os.entry fs (Filepath.Dir (Filepath.Clean fileName))) as [[|?]|];
    try discriminate.
  destruct (Os.entry fs (Filepath.Clean fileName)) as [[|?]|];
    try discriminate; reflexivity.
Qed.

(** C1, as the code has it: in [Assert], when a [ProcessContent]
    transform is configured and [ShouldRecreate] returns true (and the
    directory can be made and the file written), the value written to
    the golden file is the transformed value, the same one that is
    compared: afterwards the file reads back as the transformed data,
    and the result of [Assert] is the comparison of the transformed data
    with itself. *)
Theorem Assert_recreate_writes_processed
    (h : FileHandler) (t : T) (process : T -> string -> M string)
    (data processed fileName : string) (w w1 w2 w3 : World)
    (fs1 : gmap string node) :
  ProcessContent h = Some process ->
  process t data w = (Returned processed, w1) ->
  FileName h t w1 = (Returned fileName, w2) ->
  ShouldRecreate h t w2 = (Returned true, w3) ->
  Os.MkdirAll (Filepath.Dir fileName) 0x1ed (files w3) = (None, fs1) ->
  (forall content, fst (Os.WriteFile fileName content 0x180 fs1) = None) ->
  exists w4,
    FileHandler_Assert h t data w = Equal h t processed processed w4 /\
    Os.ReadFile fileName (files w4) = (processed, None) /\
    files w4 = <[Filepath.Clean fileName := RegularFile processed]> fs1.
Proof.
  intros Hhook Hprocess HfileName Hrecreate Hmkdir Hwritable.
  pose proof (WriteFile_any_content fileName processed processed _ _ (Hwritable processed))
    as Hwrite.
  eexists. split; [|split].
  - rewrite (Assert_steps h t data processed w w1)
      by (unfold processContent; rewrite Hhook; exact Hprocess).
    rewrite (bind_returned _ _ _ _ _
               (loadAndSaveFile_recreate h t processed fileName w1 w2 w3 HfileName
                  fs1 _ Hrecreate Hmkdir Hwrite)).
    reflexivity.
  - cbn [files setFiles]. apply (ReadFile_WriteFile _ _ _ _ _ Hwrite).
  - reflexivity.
Qed.

(** The theorem on the test "Top" with the transform [exclaim] and the
    data "raw", in the empty world. *)
Lemma Assert_recreate_writes_processed_witness :
  exists w4,
    FileHandler_Assert (handlerWith (always true) (Some exclaim))
      {| name := "Top" |} "raw" emptyWorld
    = EqualWithDiff {| name := "Top" |} "raw!" "raw!" w4 /\
    Os.ReadFile "testdata/Top/Top.golden" (files w4) = ("raw!", None) /\
    files w4 = <[Filepath.Clean "testdata/Top/Top.golden" := RegularFile "raw!"]>
                 (<["testdata/Top" := Directory]> (<["testdata" := Directory]> ∅)).
Proof.
  apply (Assert_recreate_writes_processed
           (handlerWith (always true) (Some exclaim)) {| name := "Top" |} exclaim
           "raw" "raw!" "testdata/Top/Top.golden"
           emptyWorld emptyWorld emptyWorld emptyWorld).
  - reflexivity.
  - reflexivity.
  - reflexivity.
  - reflexivity.
  - vm_compute. reflexivity.
  - intros content. vm_compute. reflexivity.
Defined.

(** C1 as the specification words it fails: with the transform [exclaim]
    and recreation, [Assert] on the data "raw" succeeds and leaves the
    golden file with the transformed "raw!", not with the original. *)
Lemma Assert_recreate_not_original :
  fst (FileHandler_Assert (handlerWith (always true) (Some exclaim))
         {| name := "Top" |} "raw" emptyWorld) = Returned true /\
  Os.ReadFile "testdata/Top/Top.golden"
    (files (snd (FileHandler_Assert (handlerWith (always true) (Some exclaim))
                   {| name := "Top" |} "raw" emptyWorld)))
  = ("raw!", None) /\
  Os.ReadFile "testdata/Top/Top.golden"
    (files (snd (FileHandler_Assert (handlerWith (always true) (Some exclaim))
                   {| name := "Top" |} "raw" emptyWorld)))
  <> ("raw", None).
Proof. vm_compute. repeat split; discriminate. Qed.

(** C3: the round trip.  With no content transform, the default path
    resolver and the default comparison, [Assert] on the data [X] under
    a policy that answers true returns true and leaves the file at the
    resolved path with exactly [X] (the directory being made and the
    file written without an error); a following [Assert] on [X] under a
    policy that answers false, on that file system, returns true as well
    and changes nothing. *)
Theorem Assert_round_trip
    (policy policy' : T -> M bool) (t : T) (X fileName : string)
    (w wp : World) (fs1 fs2 : gmap string node) :
  fst (TestNameToFilePath t w) = Returned fileName ->
  policy t w = (Returned true, wp) ->
  Os.MkdirAll (Filepath.Dir fileName) 0x1ed (files wp) = (None, fs1) ->
  Os.WriteFile fileName X 0x180 fs1 = (None, fs2) ->
  exists w1,
    FileHandler_Assert (handlerWith policy None) t X w = (Returned true, w1) /\
    files w1 = fs2 /\
    Os.ReadFile fileName (files w1) = (X, None) /\
    forall w' : World,
      files w' = files w1 ->
      policy' t w' = (Returned false, w') ->
      FileHandler_Assert (handlerWith policy' None) t X w' = (Returned true, w').
Proof.
  intros Hname Hpolicy Hmkdir Hwrite.
  assert (Hresolve : forall w', TestNameToFilePath t w' = (Returned fileName, w')).
  { intros w'. rewrite (TestNameToFilePath_frame t w w'), Hname. reflexivity. }
  pose proof (ReadFile_WriteFile _ _ _ _ _ Hwrite) as Hread.
  eexists. split; [|split; [|split]].
  - rewrite (Assert_steps _ t X X w w) by reflexivity.
    rewrite (bind_returned _ _ _ _ _
               (loadAndSaveFile_recreate (handlerWith policy None) t X _ w w wp
                  (Hresolve w) fs1 fs2 Hpolicy Hmkdir Hwrite)).
    apply EqualWithDiff_same.
  - reflexivity.
  - exact Hread.
  - cbn [files setFiles]. intros w' Hfiles Hpolicy'.
    rewrite (Assert_steps _ t X X w' w') by reflexivity.
    assert (FileHandler_loadAndSaveFile (handlerWith policy' None) t X w'
            = (Returned X, w')) as Hload.
    { rewrite (loadAndSaveFile_read (handlerWith policy' None) t X _ w' w' w'
                 (Hresolve w') Hpolicy').
      rewrite Hfiles, Hread. reflexivity. }
    rewrite (bind_returned _ _ _ _ _ Hload).
    apply EqualWithDiff_same.
Qed.

(** The round trip on the test "TestFunc/subtest" and the data
    "other data"; the first call under the environment policy with
    GOLDEN_FILES_RECREATE=true, the second under the policy [always
    false]. *)
Lemma Assert_round_trip_witness :
  exists w1,
    FileHandler_Assert (handlerWith ParseRecreateFromEnv None)
      {| name := "TestFunc/subtest" |} "other data"
      {| files := ∅; environ := {["GOLDEN_FILES_RECREATE" := "true"]}; reported := [] |}
    = (Returned true, w1) /\
    files w1 = <["testdata/TestFunc/subtest.golden" := RegularFile "other data"]>
                 (<["testdata/TestFunc" := Directory]> (<["testdata" := Directory]> ∅)) /\
    Os.ReadFile "testdata/TestFunc/subtest.golden" (files w1) = ("other data", None) /\
    forall w' : World,
      files w' = files w1 ->
      always false {| name := "TestFunc/subtest" |} w' = (Returned false, w') ->
      FileHandler_Assert (handlerWith (always false) None)
        {| name := "TestFunc/subtest" |} "other data" w' = (Returned true, w').
Proof.
  apply (Assert_round_trip ParseRecreateFromEnv (always false)
           {| name := "TestFunc/subtest" |} "other data"
           "testdata/TestFunc/subtest.golden"
           {| files := ∅; environ := {["GOLDEN_FILES_RECREATE" := "true"]};
              reported := [] |}
           {| files := ∅; environ := {["GOLDEN_FILES_RECREATE" := "true"]};
              reported := [] |}
           (<["testdata/TestFunc" := Directory]> (<["testdata" := Directory]> ∅))).
  - reflexivity.
  - vm_compute. reflexivity.
  - vm_compute. reflexivity.
  - vm_compute. reflexivity.
Defined.

(** C5: with the default comparison, a mismatch between the golden file
    and the (transformed) data does not halt the test: [Assert] returns
    false, and the one thing it adds to what loading the file left is
    the report of the difference through [Errorf]; [FailNow] is not
    called. *)
Theorem Assert_mismatch_does_not_halt
    (h : FileHandler) (t : T) (data processed expected : string)
    (w w1 w2 : World) :
  Equal h = EqualWithDiff ->
  processContent h t data w = (Returned processed, w1) ->
  FileHandler_loadAndSaveFile h t processed w1 = (Returned expected, w2) ->
  expected <> processed ->
  FileHandler_Assert h t data w =
    (Returned false, report (Errored "\n%s" [VNotEqual expected processed]) w2).
Proof.
  intros Hequal Hprocess Hload Hne.
  rewrite (Assert_steps h t data processed w w1 Hprocess).
  rewrite (bind_returned _ _ _ _ _ Hload), Hequal.
  apply EqualWithDiff_differ, Hne.
Qed.

(** The theorem on the test of the package: the file holds
    "some string", the data is "other string". *)
Lemma Assert_mismatch_does_not_halt_witness :
  Assert {| name := "TestSomeOtherString" |} "other string" storedWorld =
    (Returned false,
     report (Errored "\n%s" [VNotEqual "some string" "other string"]) storedWorld).
Proof.
  apply (Assert_mismatch_does_not_halt DefaultHandler
           {| name := "TestSomeOtherString" |} "other string" "other string"
           "some string" storedWorld storedWorld storedWorld).
  - reflexivity.
  - reflexivity.
  - vm_compute. reflexivity.
  - discriminate.
Defined.

(** C6: when the recreate policy returns false and nothing exists at the
    resolved path, [Assert] reports the failed [open] of that path
    through [Errorf], then calls [FailNow], and the test is halted. *)
Theorem Assert_missing_file_halts
    (h : FileHandler) (t : T) (data processed fileName : string)
    (w w1 w2 w3 : World) :
  processContent h t data w = (Returned processed, w1) ->
  FileName h t w1 = (Returned fileName, w2) ->
  ShouldRecreate h t w2 = (Returned false, w3) ->
  Os.stat (files w3) fileName = None ->
  exists errno,
    FileHandler_Assert h t data w =
      (Halted,
       report FailedNow
         (report (Errored "%s: %s"
                    [VString "failed to read golden file";
                     VError (PathError "open" fileName errno)]) w3)).
Proof.
  intros Hprocess HfileName Hpolicy Hmissing.
  destruct (ReadFile_missing fileName (files w3) Hmissing) as [errno Hread].
  exists errno.
  rewrite (Assert_steps h t data processed w w1 Hprocess).
  apply bind_halted.
  rewrite (loadAndSaveFile_read h t processed fileName w1 w2 w3 HfileName Hpolicy).
  rewrite Hread. reflexivity.
Qed.

(** The theorem on the test "TestDirFail" of the package, in the empty
    world. *)
Lemma Assert_missing_file_halts_witness :
  exists errno,
    Assert {| name := "TestDirFail" |} "data" emptyWorld =
      (Halted,
       report FailedNow
         (report (Errored "%s: %s"
                    [VString "failed to read golden file";
                     VError (PathError "open" "testdata/TestDirFail/TestDirFail.golden"
                               errno)]) emptyWorld)).
Proof.
  apply (Assert_missing_file_halts DefaultHandler {| name := "TestDirFail" |}
           "data" "data" "testdata/TestDirFail/TestDirFail.golden"
           emptyWorld emptyWorld emptyWorld emptyWorld).
  - reflexivity.
  - reflexivity.
  - reflexivity.
  - vm_compute. reflexivity.
Defined.

(** C10: when the recreate policy returns false and reading the golden
    file fails, [Assert] halts and the file system is the one the policy
    left: no directory and no file is created on this path. *)
Theorem Assert_read_failure_keeps_files
    (h : FileHandler) (t : T) (data processed fileName : string)
    (w w1 w2 w3 : World) (e : error) :
  processContent h t data w = (Returned processed, w1) ->
  FileName h t w1 = (Returned fileName, w2) ->
  ShouldRecreate h t w2 = (Returned false, w3) ->
  snd (Os.ReadFile fileName (files w3)) = Some e ->
  exists w',
    FileHandler_Assert h t data w = (Halted, w') /\
    files w' = files w3 /\
    reported w' =
      reported w3 ++
      [Errored "%s: %s" [VString "failed to read golden file"; VError e]; FailedNow].
Proof.
  intros Hprocess HfileName Hpolicy Hfail.
  eexists. split; [|split].
  - rewrite (Assert_steps h t data processed w w1 Hprocess).
    apply bind_halted.
    rewrite (loadAndSaveFile_read h t processed fileName w1 w2 w3 HfileName Hpolicy).
    destruct (Os.ReadFile fileName (files w3)) as [b err].
    cbn [snd] in Hfail. rewrite Hfail. reflexivity.
  - reflexivity.
  - cbn [reported report]. rewrite <- app_assoc. reflexivity.
Qed.

(** The theorem on the test "TestDirFail" of the package: the file
    system stays empty. *)
Lemma Assert_read_failure_keeps_files_witness :
  exists w',
    Assert {| name := "TestDirFail" |} "data" emptyWorld = (Halted, w') /\
    files w' = ∅ /\
    reported w' =
      [Errored "%s: %s"
         [VString "failed to read golden file";
          VError (PathError "open" "testdata/TestDirFail/TestDirFail.golden" ENOENT)];
       FailedNow].
Proof.
  apply (Assert_read_failure_keeps_files DefaultHandler {| name := "TestDirFail" |}
           "data" "data" "testdata/TestDirFail/TestDirFail.golden"
           emptyWorld emptyWorld emptyWorld emptyWorld
           (PathError "open" "testdata/TestDirFail/TestDirFail.golden" ENOENT)).
  - reflexivity.
  - reflexivity.
  - reflexivity.
  - vm_compute. reflexivity.
Defined.

(** ** The recreate policy of the environment *)

Lemma existsb_eqb_In (s : string) (l : list string) :
  existsb (String.eqb s) l = true <-> In s l.
Proof.
  rewrite existsb_exists. split.
  - intros (x & Hin & Heq). apply String.eqb_eq in Heq. subst x. exact Hin.
  - intros Hin. exists s. split; [exact Hin|apply String.eqb_refl].
Qed.

Lemma ParseBool_cases (str : string) :
  (In str ["1"; "t"; "T"; "TRUE"; "true"; "True"] -> ParseBool str = (true, None)) /\
  (In str ["0"; "f"; "F"; "FALSE"; "false"; "False"] -> ParseBool str = (false, None)) /\
  (~ In str ["1"; "t"; "T"; "TRUE"; "true"; "True";
             "0"; "f"; "F"; "FALSE"; "false"; "False"] ->
   ParseBool str = (false, Some (NumError "ParseBool" str))).
Proof.
  unfold ParseBool. repeat split.
  - intros Hin. apply existsb_eqb_In in Hin. rewrite Hin. reflexivity.
  - intros Hin.
    destruct (existsb (String.eqb str) ["1"; "t"; "T"; "TRUE"; "true"; "True"]) eqn:Ht.
    + apply existsb_eqb_In in Ht.
      cbn [In] in Hin, Ht. intuition (subst; discriminate).
    + apply existsb_eqb_In in Hin. rewrite Hin. reflexivity.
  - intros Hnot.
    destruct (existsb (String.eqb str) ["1"; "t"; "T"; "TRUE"; "true"; "True"]) eqn:Ht.
    { apply existsb_eqb_In in Ht. exfalso. apply Hnot. cbn [In] in *. intuition. }
    destruct (existsb (String.eqb str) ["0"; "f"; "F"; "FALSE"; "false"; "False"]) eqn:Hf.
    { apply existsb_eqb_In in Hf. exfalso. apply Hnot. cbn [In] in *. intuition. }
    reflexivity.
Qed.

(** C4, as the code has it: the default recreate policy reads
    GOLDEN_FILES_RECREATE from the environment of the call.  Unset or
    empty, the answer is false.  Set to one of 1, t, T, TRUE, true,
    True the answer is true, and to one of 0, f, F, FALSE, false, False
    it is false, both without a report; these twelve spellings are the
    only ones accepted (the parsing is case-sensitive).  Set to anything
    else, the policy reports the parse error through [Errorf], calls
    [FailNow] and the test is halted. *)
Theorem ParseRecreateFromEnv_cases (t : T) (w : World) :
  (environ w !! "GOLDEN_FILES_RECREATE" = None ->
   ParseRecreateFromEnv t w = (Returned false, w)) /\
  (environ w !! "GOLDEN_FILES_RECREATE" = Some "" ->
   ParseRecreateFromEnv t w = (Returned false, w)) /\
  (forall str,
      environ w !! "GOLDEN_FILES_RECREATE" = Some str ->
      In str ["1"; "t"; "T"; "TRUE"; "true"; "True"] ->
      ParseRecreateFromEnv t w = (Returned true, w)) /\
  (forall str,
      environ w !! "GOLDEN_FILES_RECREATE" = Some str ->
      In str ["0"; "f"; "F"; "FALSE"; "false"; "False"] ->
      ParseRecreateFromEnv t w = (Returned false, w)) /\
  (forall str,
      environ w !! "GOLDEN_FILES_RECREATE" = Some str ->
      str <> "" ->
      ~ In str ["1"; "t"; "T"; "TRUE"; "true"; "True";
                "0"; "f"; "F"; "FALSE"; "false"; "False"] ->
      ParseRecreateFromEnv t w =
        (Halted,
         report FailedNow
           (report (Errored "%s: %s"
                      [VString ("failed to parse GOLDEN_FILES_RECREATE env variable: '"
                                +:+ str +:+ "' to bool");
                       VError (NumError "ParseBool" str)]) w))).
Proof.
  unfold ParseRecreateFromEnv, Getenv, Os.Getenv. run.
  repeat split.
  - intros ->. reflexivity.
  - intros ->. reflexivity.
  - intros str -> Hin. cbn [default from_option id].
    destruct (ParseBool_cases str) as (Htrue & _ & _). rewrite (Htrue Hin).
    cbn [In] in Hin. intuition (subst; reflexivity).
  - intros str -> Hin. cbn [default from_option id].
    destruct (ParseBool_cases str) as (_ & Hfalse & _). rewrite (Hfalse Hin).
    cbn [In] in Hin. intuition (subst; reflexivity).
  - intros str -> Hne Hnot. cbn [default from_option id].
    destruct (ParseBool_cases str) as (_ & _ & Hbad). rewrite (Hbad Hnot).
    apply String.eqb_neq in Hne. rewrite Hne. reflexivity.
Qed.

(** The theorem in an environment with GOLDEN_FILES_RECREATE=True, where
    the policy answers true, and with GOLDEN_FILES_RECREATE=yes, where
    it halts the test. *)
Lemma ParseRecreateFromEnv_cases_witness :
  ParseRecreateFromEnv {| name := "Top" |}
    {| files := ∅; environ := {["GOLDEN_FILES_RECREATE" := "True"]}; reported := [] |}
  = (Returned true,
     {| files := ∅; environ := {["GOLDEN_FILES_RECREATE" := "True"]}; reported := [] |}) /\
  fst (ParseRecreateFromEnv {| name := "Top" |}
         {| files := ∅; environ := {["GOLDEN_FILES_RECREATE" := "yes"]}; reported := [] |})
  = Halted.
Proof.
  split.
  - destruct (ParseRecreateFromEnv_cases {| name := "Top" |}
                {| files := ∅; environ := {["GOLDEN_FILES_RECREATE" := "True"]};
                   reported := [] |}) as (_ & _ & Htrue & _ & _).
    apply (Htrue "True").
    + reflexivity.
    + simpl. tauto.
  - destruct (ParseRecreateFromEnv_cases {| name := "Top" |}
                {| files := ∅; environ := {["GOLDEN_FILES_RECREATE" := "yes"]};
                   reported := [] |}) as (_ & _ & _ & _ & Hbad).
    rewrite (Hbad "yes").
    + reflexivity.
    + reflexivity.
    + discriminate.
    + simpl. intuition discriminate.
Defined.

(** C4 as the specification words it fails: the value "tRuE", a spelling
    of "true" in another case, is not parsed to true; the policy reports
    the parse error and halts the test. *)
Lemma ParseRecreateFromEnv_case_sensitive :
  ParseRecreateFromEnv {| name := "Top" |}
    {| files := ∅; environ := {["GOLDEN_FILES_RECREATE" := "tRuE"]}; reported := [] |}
  = (Halted,
     {| files := ∅; environ := {["GOLDEN_FILES_RECREATE" := "tRuE"]};
        reported :=
          [Errored "%s: %s"
             [VString "failed to parse GOLDEN_FILES_RECREATE env variable: 'tRuE' to bool";
              VError (NumError "ParseBool" "tRuE")];
           FailedNow] |}).
Proof. reflexivity. Qed.

(** ** [Request] *)

(** After a response without an error, whose body reads to its end,
    [Request] is [Assert] on the body, run after the status codes were
    compared. *)
Lemma Request_steps (h : FileHandler) (t : T) (client : Client) (req : HTTPRequest)
    (expectedStatusCode : Z) (resp : Response) (w w0 : World) :
  Do client req w = (Returned (resp, None), w0) ->
  failure (Body resp) = None ->
  FileHandler_Request h t client req expectedStatusCode w =
    (FileHandler_Assert h t (unread (Body resp)) ≫= fun matches =>
       mret (setBody (NewReader (unread (Body resp))) resp,
             matches && Z.eqb (StatusCode resp) expectedStatusCode))
      (statusChecked expectedStatusCode resp w0).
Proof.
  intros Hdo Hbody. unfold FileHandler_Request.
  rewrite (bind_returned _ _ _ _ _ Hdo). cbv beta iota.
  rewrite (bind_returned _ _ w0 w0 tt (NoError_nil t _ w0)).
  unfold ReadAll, statusChecked. rewrite Hbody.
  destruct (Z.eqb (StatusCode resp) expectedStatusCode); reflexivity.
Qed.

Lemma Request_transport_error (h : FileHandler) (t : T) (client : Client)
    (req : HTTPRequest) (expectedStatusCode : Z) (resp : Response) (e : error)
    (w w0 : World) :
  Do client req w = (Returned (resp, Some e), w0) ->
  FileHandler_Request h t client req expectedStatusCode w =
    (Halted,
     report FailedNow
       (report (Errored "%s: %s" [VString "client.Do failed"; VError e]) w0)).
Proof.
  intros Hdo. unfold FileHandler_Request.
  rewrite (bind_returned _ _ _ _ _ Hdo). cbv beta iota.
  apply bind_halted, NoError_error.
Qed.

Lemma Request_body_error (h : FileHandler) (t : T) (client : Client)
    (req : HTTPRequest) (expectedStatusCode : Z) (resp : Response) (e : error)
    (w w0 : World) :
  Do client req w = (Returned (resp, None), w0) ->
  failure (Body resp) = Some e ->
  FileHandler_Request h t client req expectedStatusCode w =
    (Halted,
     report FailedNow
       (report (Errored "%s: %s" [VString "reading response body failed"; VError e])
          (statusChecked expectedStatusCode resp w0))).
Proof.
  intros Hdo Hbody. unfold FileHandler_Request.
  rewrite (bind_returned _ _ _ _ _ Hdo). cbv beta iota.
  rewrite (bind_returned _ _ w0 w0 tt (NoError_nil t _ w0)).
  unfold ReadAll, statusChecked. rewrite Hbody.
  destruct (Z.eqb (StatusCode resp) expectedStatusCode); reflexivity.
Qed.

(** C7 as the specification words it fails: with the transform
    [exclaim], the golden file holding "body!" and a server that answers
    the expected status with the body "body", [Request] returns
    ok = true although the body of the response is not the content of
    the golden file: the comparison is made on the transformed body. *)
Lemma Request_ok_with_transform :
  FileHandler_Request (handlerWith (always false) (Some exclaim))
    {| name := "TestRequest" |} (serverClient 200 "body") getRequest 200 transformedWorld
  = (Returned ({| StatusCode := 200; Body := NewReader "body" |}, true),
     transformedWorld) /\
  Os.ReadFile "testdata/TestRequest/TestRequest.golden" (files transformedWorld)
  = ("body!", None) /\
  "body" <> "body!".
Proof. vm_compute. repeat split; discriminate. Qed.

(** C7, as the code has it, for every handler.  [Request] halts the
    test at once on an error of the client.  Otherwise it compares the
    status codes, reporting a mismatch through [Errorf] without halting,
    and runs [Assert] on the body all the same: when [Assert] halts so
    does [Request], and when it returns, ok = true exactly when the
    status code is the expected one and [Assert] returned true.  With
    the default comparison, that is exactly when the status code is the
    expected one and the content of the golden file equals the body
    after the [ProcessContent] transform (the body itself when none is
    configured). *)
Theorem Request_ok_iff_status_and_Assert
    (h : FileHandler) (t : T) (client : Client) (req : HTTPRequest)
    (expectedStatusCode : Z) (resp : Response) (w w0 : World) :
  (forall e,
      Do client req w = (Returned (resp, Some e), w0) ->
      FileHandler_Request h t client req expectedStatusCode w =
        (Halted,
         report FailedNow
           (report (Errored "%s: %s" [VString "client.Do failed"; VError e]) w0))) /\
  (Do client req w = (Returned (resp, None), w0) ->
   failure (Body resp) = None ->
   forall (out : Outcome bool) (w' : World),
     FileHandler_Assert h t (unread (Body resp))
       (if Z.eqb (StatusCode resp) expectedStatusCode then w0
        else report (Errored "expected status code %d, got %d"
                       [VInt expectedStatusCode; VInt (StatusCode resp)]) w0)
     = (out, w') ->
     match out with
     | Returned matches =>
         exists ok,
           FileHandler_Request h t client req expectedStatusCode w =
             (Returned (setBody (NewReader (unread (Body resp))) resp, ok), w') /\
           (ok = true <-> StatusCode resp = expectedStatusCode /\ matches = true)
     | Halted =>
         FileHandler_Request h t client req expectedStatusCode w = (Halted, w')
     end) /\
  (Do client req w = (Returned (resp, None), w0) ->
   failure (Body resp) = None ->
   Equal h = EqualWithDiff ->
   forall (processed expected : string) (w1 w2 : World),
     processContent h t (unread (Body resp))
       (if Z.eqb (StatusCode resp) expectedStatusCode then w0
        else report (Errored "expected status code %d, got %d"
                       [VInt expectedStatusCode; VInt (StatusCode resp)]) w0)
     = (Returned processed, w1) ->
     FileHandler_loadAndSaveFile h t processed w1 = (Returned expected, w2) ->
     exists ok,
       FileHandler_Request h t client req expectedStatusCode w =
         (Returned (setBody (NewReader (unread (Body resp))) resp, ok),
          if String.eqb expected processed then w2
          else report (Errored "\n%s" [VNotEqual expected processed]) w2) /\
       (ok = true <-> StatusCode resp = expectedStatusCode /\ expected = processed)).
Proof.
  split; [|split].
  - intros e Hdo. apply (Request_transport_error h t client req _ resp e w w0 Hdo).
  - intros Hdo Hbody out w' Hassert.
    change (if Z.eqb (StatusCode resp) expectedStatusCode then w0 else _)
      with (statusChecked expectedStatusCode resp w0) in Hassert.
    rewrite (Request_steps h t client req _ resp w w0 Hdo Hbody).
    destruct out as [matches|].
    + exists (matches && Z.eqb (StatusCode resp) expectedStatusCode). split.
      * rewrite (bind_returned _ _ _ _ _ Hassert). reflexivity.
      * rewrite andb_true_iff, Z.eqb_eq. tauto.
    + apply (bind_halted _ _ _ _ Hassert).
  - intros Hdo Hbody Hequal processed expected w1 w2 Hprocess Hload.
    change (if Z.eqb (StatusCode resp) expectedStatusCode then w0 else _)
      with (statusChecked expectedStatusCode resp w0) in Hprocess.
    exists (String.eqb expected processed
            && Z.eqb (StatusCode resp) expectedStatusCode).
    split.
    + rewrite (Request_steps h t client req _ resp w w0 Hdo Hbody).
      assert (FileHandler_Assert h t (unread (Body resp))
                (statusChecked expectedStatusCode resp w0)
              = (Returned (String.eqb expected processed),
                 if String.eqb expected processed then w2
                 else report (Errored "\n%s" [VNotEqual expected processed]) w2))
        as Hassert.
      { rewrite (Assert_steps h t _ processed _ _ Hprocess).
        rewrite (bind_returned _ _ _ _ _ Hload), Hequal.
        destruct (String.eqb_spec expected processed) as [->|Hne].
        - apply EqualWithDiff_same.
        - apply EqualWithDiff_differ, Hne. }
      rewrite (bind_returned _ _ _ _ _ Hassert). reflexivity.
    + rewrite andb_true_iff, String.eqb_eq, Z.eqb_eq. tauto.
Qed.

(** C8: when [Request] returns, the body of the response it returns
    reads once more from its start to its end without an error, and
    gives the bytes that [Request] read from the response of the client
    and passed to [Assert] for the comparison with the golden file. *)
Theorem Request_body_rereadable
    (h : FileHandler) (t : T) (client : Client) (req : HTTPRequest)
    (expectedStatusCode : Z) (w w' : World) (returned : Response) (ok : bool) :
  FileHandler_Request h t client req expectedStatusCode w
  = (Returned (returned, ok), w') ->
  exists (resp : Response) (w0 : World) (body : string) (drained : Reader)
         (matches : bool),
    Do client req w = (Returned (resp, None), w0) /\
    ReadAll (Body resp) = (body, None, drained) /\
    FileHandler_Assert h t body (statusChecked expectedStatusCode resp w0)
    = (Returned matches, w') /\
    fst (ReadAll (Body returned)) = (body, None) /\
    StatusCode returned = StatusCode resp.
Proof.
  intros Hrun.
  destruct (Do client req w) as [[[resp [e|]]|] w0] eqn:Hdo.
  - rewrite (Request_transport_error h t client req _ resp e w w0 Hdo) in Hrun.
    discriminate.
  - destruct (failure (Body resp)) as [e|] eqn:Hbody.
    + rewrite (Request_body_error h t client req _ resp e w w0 Hdo Hbody) in Hrun.
      discriminate.
    + rewrite (Request_steps h t client req _ resp w w0 Hdo Hbody) in Hrun.
      destruct (FileHandler_Assert h t (unread (Body resp))
                  (statusChecked expectedStatusCode resp w0))
        as [[matches|] w1] eqn:Hassert.
      * rewrite (bind_returned _ _ _ _ _ Hassert) in Hrun.
        injection Hrun as <- <- <-.
        exists resp, w0, (unread (Body resp)),
          {| unread := ""; failure := failure (Body resp) |}, matches.
        repeat split; try reflexivity; try exact Hassert.
        unfold ReadAll. rewrite Hbody. reflexivity.
      * rewrite (bind_halted _ _ _ _ Hassert) in Hrun. discriminate.
  - unfold FileHandler_Request in Hrun.
    rewrite (bind_halted _ _ _ _ Hdo) in Hrun. discriminate.
Qed.

(** The theorem on a client that cannot connect; on a server that
    answers 400 with the body "bad request" where 200 is expected, under
    recreation, where the status mismatch is reported, the golden file
    is written and compared all the same, and ok is false; and on the
    transform [exclaim] with the golden file holding "body!", where ok
    is true. *)
Lemma Request_ok_iff_status_and_Assert_witness :
  FileHandler_Request (handlerWith (always true) None) {| name := "TestRequest" |}
    brokenClient getRequest 400 emptyWorld
  = (Halted,
     report FailedNow
       (report (Errored "%s: %s"
                  [VString "client.Do failed"; VError (OtherError "connection refused")])
          emptyWorld)) /\
  (exists ok,
     FileHandler_Request (handlerWith (always true) None) {| name := "TestRequest" |}
       (serverClient 400 "bad request") getRequest 200 emptyWorld
     = (Returned ({| StatusCode := 400; Body := NewReader "bad request" |}, ok),
        {| files :=
             <["testdata/TestRequest/TestRequest.golden" := RegularFile "bad request"]>
               (<["testdata/TestRequest" := Directory]> (<["testdata" := Directory]> ∅));
           environ := ∅;
           reported :=
             [Errored "expected status code %d, got %d" [VInt 200; VInt 400];
              Logged "recreating golden file: %s"
                [VString "testdata/TestRequest/TestRequest.golden"]] |}) /\
     (ok = true <-> 400%Z = 200%Z /\ true = true)) /\
  (exists ok,
     FileHandler_Request (handlerWith (always false) (Some exclaim))
       {| name := "TestRequest" |} (serverClient 200 "body") getRequest 200
       transformedWorld
     = (Returned ({| StatusCode := 200; Body := NewReader "body" |}, ok),
        transformedWorld) /\
     (ok = true <-> 200%Z = 200%Z /\ "body!" = "body!")).
Proof.
  split; [|split].
  - destruct (Request_ok_iff_status_and_Assert
                (handlerWith (always true) None) {| name := "TestRequest" |}
                brokenClient getRequest 400
                {| StatusCode := 0; Body := NewReader "" |} emptyWorld emptyWorld)
      as (Hhalt & _).
    apply (Hhalt (OtherError "connection refused")). reflexivity.
  - destruct (Request_ok_iff_status_and_Assert
                (handlerWith (always true) None) {| name := "TestRequest" |}
                (serverClient 400 "bad request") getRequest 200
                {| StatusCode := 400; Body := NewReader "bad request" |}
                emptyWorld emptyWorld)
      as (_ & Hok & _).
    apply (Hok eq_refl eq_refl (Returned true)).
    vm_compute. reflexivity.
  - destruct (Request_ok_iff_status_and_Assert
                (handlerWith (always false) (Some exclaim)) {| name := "TestRequest" |}
                (serverClient 200 "body") getRequest 200
                {| StatusCode := 200; Body := NewReader "body" |}
                transformedWorld transformedWorld)
      as (_ & _ & Hok).
    apply (Hok eq_refl eq_refl eq_refl "body!" "body!" transformedWorld transformedWorld).
    + reflexivity.
    + vm_compute. reflexivity.
Defined.

(** The theorem on the request of the package's test: the server
    answers 400 with the body "bad request", 400 is expected, and the
    golden file is recreated. *)
Lemma Request_body_rereadable_witness :
  exists (w' : World) (resp : Response) (w0 : World) (body : string)
         (drained : Reader) (matches : bool),
    Do (serverClient 400 "bad request") getRequest emptyWorld
    = (Returned (resp, None), w0) /\
    ReadAll (Body resp) = (body, None, drained) /\
    FileHandler_Assert (handlerWith (always true) None) {| name := "TestRequest" |} body
      (statusChecked 400 resp w0) = (Returned matches, w') /\
    fst (ReadAll (Body {| StatusCode := 400; Body := NewReader "bad request" |}))
    = (body, None) /\
    StatusCode {| StatusCode := 400; Body := NewReader "bad request" |}
    = StatusCode resp.
Proof.
  eexists.
  apply (Request_body_rereadable (handlerWith (always true) None)
           {| name := "TestRequest" |} (serverClient 400 "bad request") getRequest
           400 emptyWorld _ {| StatusCode := 400; Body := NewReader "bad request" |} true).
  vm_compute. reflexivity.
Defined.

(** * Further properties *)

(** ** More on strings *)

Section MoreStringFacts.

Import Strings.

Lemma append_assoc (a b c : string) : (a +:+ b) +:+ c = a +:+ (b +:+ c).
Proof.
  induction a as [|d a IH]; [reflexivity|].
  change (String d ((a +:+ b) +:+ c) = String d (a +:+ (b +:+ c))).
  rewrite IH. reflexivity.
Qed.

Lemma ReplaceAll_app (a b : string) (old new : ascii) :
  ReplaceAll (a +:+ b) old new = ReplaceAll a old new +:+ ReplaceAll b old new.
Proof. induction a as [|c a IH]; simpl; [reflexivity|]. rewrite IH. reflexivity. Qed.

Lemma ReplaceAll_id (s : string) (old new : ascii) :
  ContainsByte s old = false -> ReplaceAll s old new = s.
Proof.
  induction s as [|c s IH]; simpl; [reflexivity|].
  intros H. apply orb_false_elim in H as [Hc Hs]. rewrite Hc, (IH Hs). reflexivity.
Qed.

(** Replacing a byte does not touch the occurrences of a third one. *)
Lemma ContainsByte_ReplaceAll_other (s : string) (old new c : ascii) :
  c <> old -> c <> new ->
  ContainsByte (ReplaceAll s old new) c = ContainsByte s c.
Proof.
  intros Hold Hnew. induction s as [|d s IH]; simpl; [reflexivity|].
  rewrite IH. f_equal.
  destruct (Ascii.eqb_spec d old) as [->|_]; [|reflexivity].
  apply Ascii.eqb_neq in Hold, Hnew.
  rewrite (Ascii.eqb_sym new c), (Ascii.eqb_sym old c), Hold, Hnew. reflexivity.
Qed.

Lemma countByte_ReplaceAll_other (s : string) (old new c : ascii) :
  c <> old -> c <> new ->
  countByte (ReplaceAll s old new) c = countByte s c.
Proof.
  intros Hold Hnew. induction s as [|d s IH]; simpl; [reflexivity|].
  rewrite IH. f_equal.
  destruct (Ascii.eqb_spec d old) as [->|_]; [|reflexivity].
  apply Ascii.eqb_neq in Hold, Hnew.
  rewrite (Ascii.eqb_sym new c), (Ascii.eqb_sym old c), Hold, Hnew. reflexivity.
Qed.

Lemma countByte_app (a b : string) (c : ascii) :
  countByte (a +:+ b) c = countByte a c + countByte b c.
Proof. induction a as [|d a IH]; simpl; [reflexivity|]. rewrite IH. lia. Qed.

Lemma countByte_absent (s : string) (c : ascii) :
  ContainsByte s c = false -> countByte s c = 0.
Proof.
  induction s as [|d s IH]; simpl; [reflexivity|].
  intros H. apply orb_false_elim in H as [Hd Hs]. rewrite Hd, (IH Hs). reflexivity.
Qed.

(** A string without the replaced byte and without its replacement is
    the image of itself only. *)
Lemma ReplaceAll_eq_iff (s e : string) (old new : ascii) :
  ContainsByte e old = false -> ContainsByte e new = false ->
  ReplaceAll s old new = e <-> s = e.
Proof.
  revert e. induction s as [|c s IH]; intros [|d e]; simpl; try (split; congruence).
  intros Hold Hnew.
  apply orb_false_elim in Hold as [Hdo Heo].
  apply orb_false_elim in Hnew as [Hdn Hen].
  split.
  - intros Heq. injection Heq as Hc Hs. apply (IH e Heo Hen) in Hs. subst e.
    destruct (Ascii.eqb_spec c old) as [->|_].
    + subst d. rewrite Ascii.eqb_refl in Hdn. discriminate.
    + subst d. reflexivity.
  - intros Heq. injection Heq as -> ->. rewrite Hdo. f_equal.
    apply ReplaceAll_id, Heo.
Qed.

Lemma ReplaceAll_eqb (s e : string) (old new : ascii) :
  ContainsByte e old = false -> ContainsByte e new = false ->
  String.eqb (ReplaceAll s old new) e = String.eqb s e.
Proof.
  intros Hold Hnew. pose proof (ReplaceAll_eq_iff s e old new Hold Hnew) as Hiff.
  destruct (String.eqb_spec (ReplaceAll s old new) e) as [H1|H1],
           (String.eqb_spec s e) as [H2|H2]; tauto.
Qed.

Lemma ReplaceAll_idempotent (s : string) (old new : ascii) :
  old <> new ->
  ReplaceAll (ReplaceAll s old new) old new = ReplaceAll s old new.
Proof. intros Hne. apply ReplaceAll_id, ContainsByte_ReplaceAll, Hne. Qed.

(** Replacing the spaces and replacing the slashes, both by underscores,
    can be done in either order. *)
Lemma ReplaceAll_commute (s : string) :
  ReplaceAll (ReplaceAll s " " "_") "/" "_" = ReplaceAll (ReplaceAll s "/" "_") " " "_".
Proof.
  induction s as [|c s IH]; simpl; [reflexivity|]. rewrite IH. f_equal.
  destruct (Ascii.eqb_spec c " ") as [->|Hs]; [reflexivity|].
  destruct (Ascii.eqb_spec c "/") as [->|Hd]; [reflexivity|].
  apply Ascii.eqb_neq in Hs. rewrite Hs. reflexivity.
Qed.

Lemma SplitN2_nosep (a : string) (sep : ascii) :
  ContainsByte a sep = false -> SplitN2 a sep = [a].
Proof.
  induction a as [|c a IH]; simpl; [reflexivity|].
  intros H. apply orb_false_elim in H as [Hc Ha]. rewrite Hc, (IH Ha). reflexivity.
Qed.

Lemma SplitN2_sep (a b : string) (sep : ascii) :
  ContainsByte a sep = false -> SplitN2 (a +:+ String sep b) sep = [a; b].
Proof.
  induction a as [|c a IH]; simpl.
  - intros _. rewrite Ascii.eqb_refl. reflexivity.
  - intros H. apply orb_false_elim in H as [Hc Ha]. rewrite Hc, (IH Ha). reflexivity.
Qed.

End MoreStringFacts.

(** ** More on path resolution *)

Section MoreResolution.

Import Strings.

Lemma Join_layout (top stem : string) :
  ContainsByte top "/" = false ->
  ContainsByte stem "/" = false ->
  Filepath.Join ["./testdata/"; top; stem +:+ ".golden"] = layout top stem.
Proof. apply Join_testdata. Qed.

(** The resolver on an identifier without a slash. *)
Lemma resolver_flat (n : string) (w : World) :
  ContainsByte n "/" = false ->
  TestNameToFilePath {| name := n |} w
  = (Returned (ReplaceAll (layout n n) " " "_"), w).
Proof.
  intros Hn. unfold TestNameToFilePath. run. cbn [name].
  rewrite (SplitN2_nosep n "/" Hn), (Join_layout n n Hn Hn). reflexivity.
Qed.

(** The resolver on an identifier with sub-test names. *)
Lemma resolver_nested (top rest : string) (w : World) :
  ContainsByte top "/" = false ->
  TestNameToFilePath {| name := top +:+ String "/" rest |} w
  = (Returned (ReplaceAll (layout top (ReplaceAll rest "/" "_")) " " "_"), w).
Proof.
  intros Htop. unfold TestNameToFilePath. run. cbn [name].
  rewrite (SplitN2_sep top rest "/" Htop).
  rewrite (Join_layout top _ Htop) by (apply ContainsByte_ReplaceAll; discriminate).
  reflexivity.
Qed.

Lemma identifier_cases (n : string) :
  ContainsByte n "/" = false \/
  exists top rest, n = top +:+ String "/" rest /\ ContainsByte top "/" = false.
Proof.
  destruct (SplitN2_cases n "/") as [[Hn _]|(a & b & -> & Ha & _)]; [left|right]; eauto.
Qed.

(** The resolver in terms of the two names of the documentation. *)
Lemma resolver_layout (n : string) (w : World) :
  TestNameToFilePath {| name := n |} w
  = (Returned (ReplaceAll (layout (TopLevelName n) (RestJoinedByUnderscore n)) " " "_"), w).
Proof.
  destruct (layout_of_identifier n) as (top & stem & <- & <- & Htop & Hstem & Hrun).
  rewrite Hrun, (Join_layout _ _ Htop Hstem). reflexivity.
Qed.

(** Replacing the spaces of both names first does not change the file. *)
Lemma layout_spaces (top stem : string) :
  ReplaceAll (layout (ReplaceAll top " " "_") (ReplaceAll stem " " "_")) " " "_"
  = ReplaceAll (layout top stem) " " "_".
Proof.
  unfold layout.
  rewrite !ReplaceAll_eqb by reflexivity.
  destruct (String.eqb top "" || String.eqb top ".");
    [|destruct (String.eqb top "..")];
    rewrite !ReplaceAll_app, !ReplaceAll_idempotent by discriminate; reflexivity.
Qed.

(** The shape of every file name [layout] gives, after the spaces are
    replaced. *)
Lemma layout_shape (top stem : string) :
  ContainsByte top "/" = false ->
  ContainsByte stem "/" = false ->
  (exists base, ReplaceAll (layout top stem) " " "_" = base +:+ ".golden") /\
  ContainsByte (ReplaceAll (layout top stem) " " "_") " " = false /\
  countByte (ReplaceAll (layout top stem) " " "_") "/" <= 2.
Proof.
  intros Htop Hstem.
  apply (countByte_absent top "/") in Htop.
  apply (countByte_absent stem "/") in Hstem.
  split; [|split].
  - unfold layout.
    destruct (String.eqb top "" || String.eqb top ".");
      [|destruct (String.eqb top "..")];
      rewrite !ReplaceAll_app.
    + exists ("testdata/" +:+ ReplaceAll stem " " "_"). reflexivity.
    + exists (ReplaceAll stem " " "_"). reflexivity.
    + exists ("testdata/" +:+ ReplaceAll top " " "_" +:+ "/" +:+ ReplaceAll stem " " "_").
      cbn [ReplaceAll String.append Ascii.eqb Bool.eqb]. rewrite !append_assoc.
      reflexivity.
  - apply ContainsByte_ReplaceAll. discriminate.
  - rewrite countByte_ReplaceAll_other by discriminate.
    unfold layout.
    destruct (String.eqb top "" || String.eqb top ".");
      [|destruct (String.eqb top "..")];
      rewrite !countByte_app, ?Htop, ?Hstem; simpl; lia.
Qed.

End MoreResolution.

(** X1: the top-level names that [filepath.Join] cleans away.  When the
    identifier starts with a slash or is empty (empty top-level name),
    or its top-level name is [.], the golden file lies directly in
    [testdata]; when the top-level name is [..], it lies beside
    [testdata], in the working directory. *)
Theorem TestNameToFilePath_special_top (t : T) (w : World) :
  (TopLevelName (name t) = "" \/ TopLevelName (name t) = "." ->
   TestNameToFilePath t w =
     (Returned (Strings.ReplaceAll
                  ("testdata/" +:+ RestJoinedByUnderscore (name t) +:+ ".golden")
                  " " "_"), w)) /\
  (TopLevelName (name t) = ".." ->
   TestNameToFilePath t w =
     (Returned (Strings.ReplaceAll
                  (RestJoinedByUnderscore (name t) +:+ ".golden") " " "_"), w)).
Proof.
  destruct t as [n]. cbn [name]. rewrite (resolver_layout n w). unfold layout.
  split.
  - intros [-> | ->]; reflexivity.
  - intros ->. reflexivity.
Qed.

(** The theorem on the identifiers "/sub test" and "../sub/nested". *)
Lemma TestNameToFilePath_special_top_witness :
  TestNameToFilePath {| name := "/sub test" |} emptyWorld
  = (Returned "testdata/sub_test.golden", emptyWorld) /\
  TestNameToFilePath {| name := "../sub/nested" |} emptyWorld
  = (Returned "sub_nested.golden", emptyWorld).
Proof.
  split.
  - apply (proj1 (TestNameToFilePath_special_top {| name := "/sub test" |} emptyWorld)).
    left. reflexivity.
  - apply (proj2 (TestNameToFilePath_special_top {| name := "../sub/nested" |} emptyWorld)).
    reflexivity.
Defined.

(** X2: whatever the identifier, the resolved path ends in [.golden],
    holds no space and has at most two separators: sub-tests of any
    depth share the one directory of their top-level test. *)
Theorem TestNameToFilePath_shape (t : T) (w : World) :
  exists p,
    TestNameToFilePath t w = (Returned p, w) /\
    (exists base, p = base +:+ ".golden") /\
    Strings.ContainsByte p " " = false /\
    countByte p "/" <= 2.
Proof.
  destruct t as [n].
  destruct (layout_of_identifier n) as (top & stem & _ & _ & Htop & Hstem & Hrun).
  eexists. split; [apply Hrun|].
  rewrite (Join_layout _ _ Htop Hstem). apply layout_shape; assumption.
Qed.

(** X3: an identifier and the one with its spaces replaced by
    underscores resolve to the same golden file. *)
Theorem TestNameToFilePath_spaces_collide (n : string) (w : World) :
  TestNameToFilePath {| name := Strings.ReplaceAll n " " "_" |} w
  = TestNameToFilePath {| name := n |} w.
Proof.
  destruct (identifier_cases n) as [Hn | (top & rest & -> & Htop)].
  - rewrite (resolver_flat n w Hn).
    rewrite resolver_flat
      by (rewrite ContainsByte_ReplaceAll_other by discriminate; exact Hn).
    rewrite layout_spaces. reflexivity.
  - rewrite (resolver_nested top rest w Htop).
    rewrite ReplaceAll_app.
    change (Strings.ReplaceAll (String "/" rest) " " "_")
      with (String "/" (Strings.ReplaceAll rest " " "_")).
    rewrite resolver_nested
      by (rewrite ContainsByte_ReplaceAll_other by discriminate; exact Htop).
    rewrite ReplaceAll_commute, layout_spaces. reflexivity.
Qed.

(** X4: below the top-level name, a slash and an underscore name the
    same golden file: the identifier [top/rest] and the one with the
    slashes of [rest] replaced by underscores resolve to the same
    path. *)
Theorem TestNameToFilePath_slashes_collide (top rest : string) (w : World) :
  Strings.ContainsByte top "/" = false ->
  TestNameToFilePath {| name := top +:+ "/" +:+ Strings.ReplaceAll rest "/" "_" |} w
  = TestNameToFilePath {| name := top +:+ "/" +:+ rest |} w.
Proof.
  intros Htop.
  change (top +:+ "/" +:+ Strings.ReplaceAll rest "/" "_")
    with (top +:+ String "/" (Strings.ReplaceAll rest "/" "_")).
  change (top +:+ "/" +:+ rest) with (top +:+ String "/" rest).
  rewrite !resolver_nested by exact Htop.
  rewrite ReplaceAll_idempotent by discriminate. reflexivity.
Qed.

(** The theorem on "TestFunc/subtest/nested": it shares its golden file
    with "TestFunc/subtest_nested". *)
Lemma TestNameToFilePath_slashes_collide_witness :
  TestNameToFilePath {| name := "TestFunc/subtest_nested" |} emptyWorld
  = TestNameToFilePath {| name := "TestFunc/subtest/nested" |} emptyWorld.
Proof.
  apply (TestNameToFilePath_slashes_collide "TestFunc" "subtest/nested" emptyWorld).
  reflexivity.
Defined.

(** ** The golden file in the file system *)

Section ResolvedPath.

Import Strings Filepath.

(** A directory name [a] and a file name [b]: one element each, none of
    the elements that [Clean] drops. *)
Variables a b : string.
Hypothesis Ha : ContainsByte a "/" = false.
Hypothesis Hb : ContainsByte b "/" = false.
Hypothesis Ha1 : String.eqb a "" = false.
Hypothesis Ha2 : String.eqb a "." = false.
Hypothesis Ha3 : String.eqb a ".." = false.
Hypothesis Hb1 : String.eqb b "" = false.
Hypothesis Hb2 : String.eqb b "." = false.
Hypothesis Hb3 : String.eqb b ".." = false.

Lemma Split_resolved :
  Split ("testdata/" +:+ a +:+ "/" +:+ b) "/" = ["testdata"; a; b].
Proof.
  change (Split ("testdata" +:+ String "/" (a +:+ String "/" b)) "/"
          = ["testdata"; a; b]).
  rewrite !Split_sep by (assumption || reflexivity).
  rewrite (Split_nosep b) by assumption. reflexivity.
Qed.

Lemma Clean_resolved :
  Clean ("testdata/" +:+ a +:+ "/" +:+ b) = "testdata/" +:+ a +:+ "/" +:+ b.
Proof.
  unfold Clean, Separator. rewrite Split_resolved.
  change (IsRooted ("testdata/" +:+ a +:+ "/" +:+ b)) with false.
  cbn [cleanElems String.eqb Ascii.eqb Bool.eqb].
  rewrite Ha1, Ha2, Ha3, Hb1, Hb2, Hb3. reflexivity.
Qed.

Lemma uptoLastSeparator_nosep (s : string) :
  ContainsByte s Separator = false -> uptoLastSeparator s = "".
Proof. destruct s as [|c s]; [reflexivity|]. cbn [uptoLastSeparator]. intros ->. reflexivity. Qed.

Lemma uptoLastSeparator_sep (x y : string) :
  ContainsByte y Separator = false ->
  uptoLastSeparator (x +:+ String Separator y) = x +:+ String Separator "".
Proof.
  intros Hy. induction x as [|c x IH].
  - change ("" +:+ String Separator y) with (String Separator y).
    cbn [uptoLastSeparator ContainsByte]. rewrite Ascii.eqb_refl. cbn [orb].
    rewrite (uptoLastSeparator_nosep y Hy). reflexivity.
  - change (String c x +:+ String Separator y)
      with (String c (x +:+ String Separator y)).
    cbn [uptoLastSeparator].
    replace (ContainsByte (String c (x +:+ String Separator y)) Separator) with true.
    + rewrite IH. reflexivity.
    + cbn [ContainsByte]. rewrite ContainsByte_app. cbn [ContainsByte].
      rewrite Ascii.eqb_refl. cbn [orb]. rewrite !orb_true_r. reflexivity.
Qed.

Lemma Split_directory :
  Split ("testdata/" +:+ a) "/" = ["testdata"; a].
Proof.
  change (Split ("testdata" +:+ String "/" a) "/" = ["testdata"; a]).
  rewrite Split_sep by reflexivity.
  rewrite (Split_nosep a) by assumption. reflexivity.
Qed.

Lemma Split_directory_slash :
  Split (("testdata/" +:+ a) +:+ String "/" "") "/" = ["testdata"; a; ""].
Proof.
  change (Split ("testdata" +:+ String "/" (a +:+ String "/" "")) "/"
          = ["testdata"; a; ""]).
  rewrite !Split_sep by (assumption || reflexivity). reflexivity.
Qed.

Lemma Dir_resolved : Dir ("testdata/" +:+ a +:+ "/" +:+ b) = "testdata/" +:+ a.
Proof.
  unfold Dir.
  change ("testdata/" +:+ a +:+ "/" +:+ b)
    with (("testdata/" +:+ a) +:+ String Separator b).
  rewrite (uptoLastSeparator_sep _ b Hb).
  unfold Clean, Separator. rewrite Split_directory_slash.
  change (IsRooted (("testdata/" +:+ a) +:+ String "/" "")) with false.
  cbn [cleanElems String.eqb Ascii.eqb Bool.eqb].
  rewrite Ha1, Ha2, Ha3. reflexivity.
Qed.

End ResolvedPath.

Section Identifier.

Import Strings.

(** An identifier with a top-level name of its own. *)
Variable n : string.
Hypothesis Hn1 : TopLevelName n <> "".
Hypothesis Hn2 : TopLevelName n <> ".".
Hypothesis Hn3 : TopLevelName n <> "..".

Lemma resolver_goldenPath (w : World) :
  TestNameToFilePath {| name := n |} w = (Returned (goldenPath n), w).
Proof.
  rewrite (resolver_layout n w). unfold layout.
  apply String.eqb_neq in Hn1, Hn2, Hn3. rewrite Hn1, Hn2, Hn3. cbn [orb].
  rewrite !ReplaceAll_app. reflexivity.
Qed.

Lemma directory_element :
  ContainsByte (ReplaceAll (TopLevelName n) " " "_") "/" = false /\
  String.eqb (ReplaceAll (TopLevelName n) " " "_") "" = false /\
  String.eqb (ReplaceAll (TopLevelName n) " " "_") "." = false /\
  String.eqb (ReplaceAll (TopLevelName n) " " "_") ".." = false.
Proof.
  destruct (layout_of_identifier n) as (top & stem & <- & _ & Htop & _ & _).
  rewrite ContainsByte_ReplaceAll_other by discriminate.
  rewrite !ReplaceAll_eqb by reflexivity.
  apply String.eqb_neq in Hn1, Hn2, Hn3. auto.
Qed.

Lemma file_element :
  ContainsByte (ReplaceAll (RestJoinedByUnderscore n) " " "_" +:+ ".golden") "/" = false /\
  String.eqb (ReplaceAll (RestJoinedByUnderscore n) " " "_" +:+ ".golden") "" = false /\
  String.eqb (ReplaceAll (RestJoinedByUnderscore n) " " "_" +:+ ".golden") "." = false /\
  String.eqb (ReplaceAll (RestJoinedByUnderscore n) " " "_" +:+ ".golden") ".." = false.
Proof.
  destruct (layout_of_identifier n) as (top & stem & _ & <- & _ & Hstem & _).
  rewrite ContainsByte_app, ContainsByte_ReplaceAll_other, Hstem by discriminate.
  rewrite !golden_name_long by (simpl; lia). auto.
Qed.

Lemma Dir_goldenPath : Filepath.Dir (goldenPath n) = goldenDir n.
Proof.
  destruct directory_element as (Ha & Ha1 & Ha2 & Ha3).
  destruct file_element as (Hb & _).
  apply (Dir_resolved _ _ Ha Hb Ha1 Ha2 Ha3).
Qed.

Lemma Clean_goldenPath : Filepath.Clean (goldenPath n) = goldenPath n.
Proof.
  destruct directory_element as (Ha & Ha1 & Ha2 & Ha3).
  destruct file_element as (Hb & Hb1 & Hb2 & Hb3).
  apply (Clean_resolved _ _ Ha Hb Ha1 Ha2 Ha3 Hb1 Hb2 Hb3).
Qed.

End Identifier.

(** X5: for an identifier with a top-level name of its own, the
    resolved path is already clean, and its directory, the one that
    [loadAndSaveFile] makes under recreation, is [testdata/<top>] with
    the spaces of the top-level name replaced. *)
Theorem TestNameToFilePath_directory (t : T) (w : World) :
  TopLevelName (name t) <> "" ->
  TopLevelName (name t) <> "." ->
  TopLevelName (name t) <> ".." ->
  exists p,
    TestNameToFilePath t w = (Returned p, w) /\
    Filepath.Clean p = p /\
    Filepath.Dir p
    = "testdata/" +:+ Strings.ReplaceAll (TopLevelName (name t)) " " "_".
Proof.
  destruct t as [n]. cbn [name]. intros H1 H2 H3.
  exists (goldenPath n). split; [|split].
  - apply resolver_goldenPath; assumption.
  - apply Clean_goldenPath; assumption.
  - apply Dir_goldenPath; assumption.
Qed.

(** The theorem on the identifier "Test Func/sub test". *)
Lemma TestNameToFilePath_directory_witness :
  exists p,
    TestNameToFilePath {| name := "Test Func/sub test" |} emptyWorld
    = (Returned p, emptyWorld) /\
    Filepath.Clean p = p /\
    Filepath.Dir p = "testdata/Test_Func".
Proof.
  apply (TestNameToFilePath_directory {| name := "Test Func/sub test" |} emptyWorld);
    vm_compute; discriminate.
Defined.

(** X7: a recreation overwrites.  With the default resolver and
    comparison and no transform, after [Assert] has recreated the golden
    file with the data [Y] (the directory made and the file written
    without an error), the entry of the golden file is a regular file
    with the content [Y], whatever was there before; and on that file
    system, under a policy that answers false, [Assert] returns true on
    [Y] and changes nothing, and returns false on any other data [X],
    reporting the difference from [Y] through [Errorf]. *)
Theorem Assert_recreate_overwrites
    (policy policy' : T -> M bool) (t : T) (X Y fileName : string)
    (w wp : World) (fs1 fs2 : gmap string node) :
  fst (TestNameToFilePath t w) = Returned fileName ->
  policy t w = (Returned true, wp) ->
  Os.MkdirAll (Filepath.Dir fileName) 0x1ed (files wp) = (None, fs1) ->
  Os.WriteFile fileName Y 0x180 fs1 = (None, fs2) ->
  X <> Y ->
  exists w1,
    FileHandler_Assert (handlerWith policy None) t Y w = (Returned true, w1) /\
    files w1 = <[Filepath.Clean fileName := RegularFile Y]> fs1 /\
    forall w' : World,
      files w' = files w1 ->
      policy' t w' = (Returned false, w') ->
      FileHandler_Assert (handlerWith policy' None) t Y w' = (Returned true, w') /\
      FileHandler_Assert (handlerWith policy' None) t X w'
      = (Returned false, report (Errored "\n%s" [VNotEqual Y X]) w').
Proof.
  intros Hname Hpolicy Hmkdir Hwrite Hne.
  assert (Hresolve : forall w', TestNameToFilePath t w' = (Returned fileName, w')).
  { intros w'. rewrite (TestNameToFilePath_frame t w w'), Hname. reflexivity. }
  pose proof (ReadFile_WriteFile _ _ _ _ _ Hwrite) as Hread.
  destruct (WriteFile_stores _ _ _ _ _ Hwrite) as [Hfs2 _].
  eexists. split; [|split].
  - rewrite (Assert_steps _ t Y Y w w) by reflexivity.
    rewrite (bind_returned _ _ _ _ _
               (loadAndSaveFile_recreate (handlerWith policy None) t Y _ w w wp
                  (Hresolve w) fs1 fs2 Hpolicy Hmkdir Hwrite)).
    apply EqualWithDiff_same.
  - cbn [files setFiles]. exact Hfs2.
  - cbn [files setFiles]. intros w' Hfiles Hpolicy'.
    assert (Hload : forall data,
               FileHandler_loadAndSaveFile (handlerWith policy' None) t data w'
               = (Returned Y, w')).
    { intros data.
      rewrite (loadAndSaveFile_read (handlerWith policy' None) t data _ w' w' w'
                 (Hresolve w') Hpolicy').
      rewrite Hfiles, Hread. reflexivity. }
    split.
    + rewrite (Assert_steps _ t Y Y w' w') by reflexivity.
      rewrite (bind_returned _ _ _ _ _ (Hload Y)).
      apply EqualWithDiff_same.
    + rewrite (Assert_steps _ t X X w' w') by reflexivity.
      rewrite (bind_returned _ _ _ _ _ (Hload X)).
      apply EqualWithDiff_differ. congruence.
Qed.

(** The theorem on the test "TestFunc/subtest" of the package, whose
    golden file holds "other data" and is recreated with
    "other data overwrite". *)
Lemma Assert_recreate_overwrites_witness :
  exists w1,
    FileHandler_Assert (handlerWith (always true) None)
      {| name := "TestFunc/subtest" |} "other data overwrite" createdWorld
    = (Returned true, w1) /\
    files w1 = <[Filepath.Clean "testdata/TestFunc/subtest.golden" :=
                   RegularFile "other data overwrite"]> (files createdWorld) /\
    forall w' : World,
      files w' = files w1 ->
      always false {| name := "TestFunc/subtest" |} w' = (Returned false, w') ->
      FileHandler_Assert (handlerWith (always false) None)
        {| name := "TestFunc/subtest" |} "other data overwrite" w'
      = (Returned true, w') /\
      FileHandler_Assert (handlerWith (always false) None)
        {| name := "TestFunc/subtest" |} "other data" w'
      = (Returned false,
         report (Errored "\n%s" [VNotEqual "other data overwrite" "other data"]) w').
Proof.
  apply (Assert_recreate_overwrites (always true) (always false)
           {| name := "TestFunc/subtest" |} "other data" "other data overwrite"
           "testdata/TestFunc/subtest.golden" createdWorld createdWorld
           (files createdWorld)
           (<["testdata/TestFunc/subtest.golden" := RegularFile "other data overwrite"]>
              (files createdWorld))).
  - reflexivity.
  - reflexivity.
  - vm_compute. reflexivity.
  - vm_compute. reflexivity.
  - discriminate.
Defined.

(** ** The error paths of [loadAndSaveFile] *)

Section RecreateErrors.

Variables (h : FileHandler) (t : T) (data processed fileName : string).
Variables (w w1 w2 w3 : World).
Hypothesis Hprocess : processContent h t data w = (Returned processed, w1).
Hypothesis HfileName : FileName h t w1 = (Returned fileName, w2).
Hypothesis Hrecreate : ShouldRecreate h t w2 = (Returned true, w3).

Lemma loadAndSaveFile_mkdir_error (e : error) (fs1 : gmap string node) :
  Os.MkdirAll (Filepath.Dir fileName) 0x1ed (files w3) = (Some e, fs1) ->
  FileHandler_loadAndSaveFile h t processed w1 =
    (Halted,
     report FailedNow
       (report (Errored "%s: %s"
                  [VString "failed to create testdata directory for golden file";
                   VError e])
          (setFiles fs1
             (report (Logged "recreating golden file: %s" [VString fileName]) w3)))).
Proof.
  intros Hmkdir. unfold FileHandler_loadAndSaveFile.
  rewrite (bind_returned _ _ _ _ _ HfileName).
  rewrite (bind_returned _ _ _ _ _ Hrecreate).
  run. unfold Logf, MkdirAll, fileOp. cbn [files report setFiles].
  rewrite Hmkdir. cbn [files setFiles]. rewrite NoError_error. reflexivity.
Qed.

Lemma loadAndSaveFile_write_error (e : error) (fs1 fs2 : gmap string node) :
  Os.MkdirAll (Filepath.Dir fileName) 0x1ed (files w3) = (None, fs1) ->
  Os.WriteFile fileName processed 0x180 fs1 = (Some e, fs2) ->
  FileHandler_loadAndSaveFile h t processed w1 =
    (Halted,
     report FailedNow
       (report (Errored "%s: %s" [VString "failed to write golden file"; VError e])
          (setFiles fs2
             (report (Logged "recreating golden file: %s" [VString fileName]) w3)))).
Proof.
  intros Hmkdir Hwrite.
  unfold FileHandler_loadAndSaveFile.
  rewrite (bind_returned _ _ _ _ _ HfileName).
  rewrite (bind_returned _ _ _ _ _ Hrecreate).
  run. unfold Logf, MkdirAll, WriteFile, fileOp. cbn [files report setFiles].
  rewrite Hmkdir. cbn [files setFiles]. rewrite NoError_nil.
  cbn [files setFiles]. rewrite Hwrite. cbn [files setFiles].
  rewrite NoError_error. reflexivity.
Qed.

(** X8: when the policy answers true and the directory of the golden
    file cannot be made, [Assert] logs the recreation, reports the error
    of [MkdirAll] through [Errorf] and halts the test; nothing is
    written after that: the file system is the one [MkdirAll] left. *)
Theorem Assert_mkdir_failure_halts (e : error) (fs1 : gmap string node) :
  Os.MkdirAll (Filepath.Dir fileName) 0x1ed (files w3) = (Some e, fs1) ->
  exists w',
    FileHandler_Assert h t data w = (Halted, w') /\
    files w' = fs1 /\
    reported w' =
      reported w3 ++
      [Logged "recreating golden file: %s" [VString fileName];
       Errored "%s: %s"
         [VString "failed to create testdata directory for golden file"; VError e];
       FailedNow].
Proof.
  intros Hmkdir. eexists. split; [|split].
  - rewrite (Assert_steps h t data processed w w1 Hprocess).
    apply bind_halted. apply (loadAndSaveFile_mkdir_error e fs1 Hmkdir).
  - reflexivity.
  - cbn [reported report setFiles]. rewrite <- !app_assoc. reflexivity.
Qed.

(** X9: when the policy answers true and the directory is there but the
    golden file cannot be written, [Assert] reports the error of
    [WriteFile] through [Errorf], calls [FailNow] and halts the test;
    its reports are the log line, that error and the halt, nothing else,
    and the file system is the one the failed [WriteFile] left. *)
Theorem Assert_write_failure_halts (e : error) (fs1 fs2 : gmap string node) :
  Os.MkdirAll (Filepath.Dir fileName) 0x1ed (files w3) = (None, fs1) ->
  Os.WriteFile fileName processed 0x180 fs1 = (Some e, fs2) ->
  exists w',
    FileHandler_Assert h t data w = (Halted, w') /\
    files w' = fs2 /\
    reported w' =
      reported w3 ++
      [Logged "recreating golden file: %s" [VString fileName];
       Errored "%s: %s" [VString "failed to write golden file"; VError e];
       FailedNow].
Proof.
  intros Hmkdir Hwrite. eexists. split; [|split].
  - rewrite (Assert_steps h t data processed w w1 Hprocess).
    apply bind_halted. apply (loadAndSaveFile_write_error e fs1 fs2 Hmkdir Hwrite).
  - reflexivity.
  - cbn [reported report setFiles]. rewrite <- !app_assoc. reflexivity.
Qed.

End RecreateErrors.

(** The theorem on the test "Top" where a regular file has the name
    [testdata]. *)
Lemma Assert_mkdir_failure_halts_witness :
  exists w',
    FileHandler_Assert (handlerWith (always true) None) {| name := "Top" |} "data"
      {| files := {["testdata" := RegularFile "in the way"]};
         environ := ∅; reported := [] |}
    = (Halted, w') /\
    files w' = {["testdata" := RegularFile "in the way"]} /\
    reported w' =
      [] ++
      [Logged "recreating golden file: %s" [VString "testdata/Top/Top.golden"];
       Errored "%s: %s"
         [VString "failed to create testdata directory for golden file";
          VError (PathError "mkdir" "testdata" ENOTDIR)];
       FailedNow].
Proof.
  apply (Assert_mkdir_failure_halts (handlerWith (always true) None) {| name := "Top" |}
           "data" "data" "testdata/Top/Top.golden"
           {| files := {["testdata" := RegularFile "in the way"]};
              environ := ∅; reported := [] |}
           {| files := {["testdata" := RegularFile "in the way"]};
              environ := ∅; reported := [] |}
           {| files := {["testdata" := RegularFile "in the way"]};
              environ := ∅; reported := [] |}
           {| files := {["testdata" := RegularFile "in the way"]};
              environ := ∅; reported := [] |}).
  - reflexivity.
  - reflexivity.
  - reflexivity.
  - vm_compute. reflexivity.
Defined.

(** The theorem on the test "Top" where a directory has the name of the
    golden file. *)
Lemma Assert_write_failure_halts_witness :
  exists w',
    FileHandler_Assert (handlerWith (always true) None) {| name := "Top" |} "data"
      {| files := <["testdata/Top/Top.golden" := Directory]>
                    (<["testdata/Top" := Directory]> (<["testdata" := Directory]> ∅));
         environ := ∅; reported := [] |}
    = (Halted, w') /\
    files w' = <["testdata/Top/Top.golden" := Directory]>
                 (<["testdata/Top" := Directory]> (<["testdata" := Directory]> ∅)) /\
    reported w' =
      [] ++
      [Logged "recreating golden file: %s" [VString "testdata/Top/Top.golden"];
       Errored "%s: %s"
         [VString "failed to write golden file";
          VError (PathError "open" "testdata/Top/Top.golden" EISDIR)];
       FailedNow].
Proof.
  apply (Assert_write_failure_halts (handlerWith (always true) None) {| name := "Top" |}
           "data" "data" "testdata/Top/Top.golden"
           {| files := <["testdata/Top/Top.golden" := Directory]>
                         (<["testdata/Top" := Directory]> (<["testdata" := Directory]> ∅));
              environ := ∅; reported := [] |}
           {| files := <["testdata/Top/Top.golden" := Directory]>
                         (<["testdata/Top" := Directory]> (<["testdata" := Directory]> ∅));
              environ := ∅; reported := [] |}
           {| files := <["testdata/Top/Top.golden" := Directory]>
                         (<["testdata/Top" := Directory]> (<["testdata" := Directory]> ∅));
              environ := ∅; reported := [] |}
           {| files := <["testdata/Top/Top.golden" := Directory]>
                         (<["testdata/Top" := Directory]> (<["testdata" := Directory]> ∅));
              environ := ∅; reported := [] |}
           eq_refl eq_refl eq_refl
           (PathError "open" "testdata/Top/Top.golden" EISDIR)
           (<["testdata/Top/Top.golden" := Directory]>
              (<["testdata/Top" := Directory]> (<["testdata" := Directory]> ∅)))
           (<["testdata/Top/Top.golden" := Directory]>
              (<["testdata/Top" := Directory]> (<["testdata" := Directory]> ∅)))).
  - vm_compute. reflexivity.
  - vm_compute. reflexivity.
Defined.

(** ** [Assert] with and without recreation *)

(** X10: without recreation [Assert] only reads.  With the default
    comparison, when the policy answers false, [Assert] leaves the file
    system and the environment as the policy left them, whatever the
    outcome; it returns true exactly when the golden file reads back as
    the (transformed) data, and then it reports nothing. *)
Theorem Assert_without_recreation
    (h : FileHandler) (t : T) (data processed fileName : string)
    (w w1 w2 w3 : World) :
  Equal h = EqualWithDiff ->
  processContent h t data w = (Returned processed, w1) ->
  FileName h t w1 = (Returned fileName, w2) ->
  ShouldRecreate h t w2 = (Returned false, w3) ->
  exists (out : Outcome bool) (w' : World),
    FileHandler_Assert h t data w = (out, w') /\
    files w' = files w3 /\
    environ w' = environ w3 /\
    (out = Returned true <-> Os.ReadFile fileName (files w3) = (processed, None)) /\
    (out = Returned true -> w' = w3).
Proof.
  intros Hequal Hprocess HfileName Hpolicy.
  rewrite (Assert_steps h t data processed w w1 Hprocess).
  pose proof (loadAndSaveFile_read h t processed fileName w1 w2 w3 HfileName Hpolicy)
    as Hload.
  destruct (Os.ReadFile fileName (files w3)) as [content [e|]].
  - rewrite (bind_halted _ _ _ _ Hload).
    do 2 eexists. split; [reflexivity|].
    repeat split; try discriminate.
  - rewrite (bind_returned _ _ _ _ _ Hload), Hequal.
    destruct (String.eqb_spec content processed) as [->|Hne].
    + rewrite EqualWithDiff_same. do 2 eexists. split; [reflexivity|].
      repeat split; reflexivity.
    + rewrite (EqualWithDiff_differ t content processed w3 Hne).
      do 2 eexists. split; [reflexivity|].
      repeat split; try discriminate. intros Heq. congruence.
Qed.

(** The theorem on the test "TestSomeOtherString" of the package and the
    data that its golden file holds. *)
Lemma Assert_without_recreation_witness :
  exists (out : Outcome bool) (w' : World),
    Assert {| name := "TestSomeOtherString" |} "some string" storedWorld = (out, w') /\
    files w' = files storedWorld /\
    environ w' = environ storedWorld /\
    (out = Returned true <->
     Os.ReadFile "testdata/TestSomeOtherString/TestSomeOtherString.golden"
       (files storedWorld) = ("some string", None)) /\
    (out = Returned true -> w' = storedWorld).
Proof.
  apply (Assert_without_recreation DefaultHandler {| name := "TestSomeOtherString" |}
           "some string" "some string"
           "testdata/TestSomeOtherString/TestSomeOtherString.golden"
           storedWorld storedWorld storedWorld storedWorld);
    reflexivity.
Defined.

(** X11: a recreation passes with a transform as well.  With the default
    comparison and any transform that returns, when the policy answers
    true and the directory is made and the file written without an
    error, [Assert] returns true; what it adds to the reports is the log
    line of the recreation alone, and the golden file holds the
    transformed data. *)
Theorem Assert_recreation_passes
    (h : FileHandler) (t : T) (data processed fileName : string)
    (w w1 w2 w3 : World) (fs1 fs2 : gmap string node) :
  Equal h = EqualWithDiff ->
  processContent h t data w = (Returned processed, w1) ->
  FileName h t w1 = (Returned fileName, w2) ->
  ShouldRecreate h t w2 = (Returned true, w3) ->
  Os.MkdirAll (Filepath.Dir fileName) 0x1ed (files w3) = (None, fs1) ->
  Os.WriteFile fileName processed 0x180 fs1 = (None, fs2) ->
  exists w',
    FileHandler_Assert h t data w = (Returned true, w') /\
    reported w' =
      reported w3 ++ [Logged "recreating golden file: %s" [VString fileName]] /\
    environ w' = environ w3 /\
    Os.ReadFile fileName (files w') = (processed, None).
Proof.
  intros Hequal Hprocess HfileName Hpolicy Hmkdir Hwrite.
  eexists. split; [|split; [|split]].
  - rewrite (Assert_steps h t data processed w w1 Hprocess).
    rewrite (bind_returned _ _ _ _ _
               (loadAndSaveFile_recreate h t processed fileName w1 w2 w3 HfileName
                  fs1 fs2 Hpolicy Hmkdir Hwrite)).
    rewrite Hequal. apply EqualWithDiff_same.
  - reflexivity.
  - reflexivity.
  - cbn [files setFiles]. apply (ReadFile_WriteFile _ _ _ _ _ Hwrite).
Qed.

(** The theorem on the test "Top" with the transform [exclaim]. *)
Lemma Assert_recreation_passes_witness :
  exists w',
    FileHandler_Assert (handlerWith (always true) (Some exclaim))
      {| name := "Top" |} "raw" emptyWorld = (Returned true, w') /\
    reported w' =
      [] ++ [Logged "recreating golden file: %s" [VString "testdata/Top/Top.golden"]] /\
    environ w' = ∅ /\
    Os.ReadFile "testdata/Top/Top.golden" (files w') = ("raw!", None).
Proof.
  apply (Assert_recreation_passes (handlerWith (always true) (Some exclaim))
           {| name := "Top" |} "raw" "raw!" "testdata/Top/Top.golden"
           emptyWorld emptyWorld emptyWorld emptyWorld
           (<["testdata/Top" := Directory]> (<["testdata" := Directory]> ∅))
           (<["testdata/Top/Top.golden" := RegularFile "raw!"]>
              (<["testdata/Top" := Directory]> (<["testdata" := Directory]> ∅))));
    try reflexivity; vm_compute; reflexivity.
Defined.

(** ** The policy of the environment, once more *)

(** The three ways [ParseRecreateFromEnv] ends. *)
Lemma ParseRecreateFromEnv_run (t : T) (w : World) :
  let str := Os.Getenv "GOLDEN_FILES_RECREATE" (environ w) in
  ParseRecreateFromEnv t w =
    if String.eqb str "" then (Returned false, w)
    else if existsb (String.eqb str) ["1"; "t"; "T"; "TRUE"; "true"; "True"]
    then (Returned true, w)
    else if existsb (String.eqb str) ["0"; "f"; "F"; "FALSE"; "false"; "False"]
    then (Returned false, w)
    else (Halted,
          report FailedNow
            (report (Errored "%s: %s"
                       [VString ("failed to parse GOLDEN_FILES_RECREATE env variable: '"
                                 +:+ str +:+ "' to bool");
                        VError (NumError "ParseBool" str)]) w)).
Proof.
  intros str. unfold ParseRecreateFromEnv, Getenv. run. fold str.
  destruct (String.eqb str ""); [reflexivity|].
  unfold ParseBool.
  destruct (existsb (String.eqb str) ["1"; "t"; "T"; "TRUE"; "true"; "True"]);
    [reflexivity|].
  destruct (existsb (String.eqb str) ["0"; "f"; "F"; "FALSE"; "false"; "False"]);
    reflexivity.
Qed.

(** X12: the policy of the environment answers true in one situation
    only, GOLDEN_FILES_RECREATE set to one of 1, t, T, TRUE, true, True.
    Whenever it returns it has reported nothing, and it never changes
    the file system or the environment. *)
Theorem ParseRecreateFromEnv_true_iff (t : T) (w : World) :
  (fst (ParseRecreateFromEnv t w) = Returned true <->
   In (Os.Getenv "GOLDEN_FILES_RECREATE" (environ w))
      ["1"; "t"; "T"; "TRUE"; "true"; "True"]) /\
  (forall b w', ParseRecreateFromEnv t w = (Returned b, w') -> w' = w) /\
  files (snd (ParseRecreateFromEnv t w)) = files w /\
  environ (snd (ParseRecreateFromEnv t w)) = environ w.
Proof.
  rewrite (ParseRecreateFromEnv_run t w). cbv zeta.
  set (str := Os.Getenv "GOLDEN_FILES_RECREATE" (environ w)).
  rewrite <- (existsb_eqb_In str ["1"; "t"; "T"; "TRUE"; "true"; "True"]).
  destruct (String.eqb_spec str "") as [->|Hne].
  - cbn. repeat split; try discriminate; congruence.
  - destruct (existsb (String.eqb str) ["1"; "t"; "T"; "TRUE"; "true"; "True"]).
    + cbn [fst snd]. repeat split; congruence.
    + destruct (existsb (String.eqb str) ["0"; "f"; "F"; "FALSE"; "false"; "False"]);
        cbn [fst snd]; repeat split; try discriminate; congruence.
Qed.

(** X13: a malformed GOLDEN_FILES_RECREATE stops the package-level
    [Assert] before it touches the golden file: whatever the file system
    holds, [Assert] reports the parse error, halts, and has neither read
    nor written anything. *)
Theorem Assert_malformed_environment (t : T) (data str : string) (w : World) :
  environ w !! "GOLDEN_FILES_RECREATE" = Some str ->
  str <> "" ->
  ~ In str ["1"; "t"; "T"; "TRUE"; "true"; "True";
            "0"; "f"; "F"; "FALSE"; "false"; "False"] ->
  Assert t data w =
    (Halted,
     report FailedNow
       (report (Errored "%s: %s"
                  [VString ("failed to parse GOLDEN_FILES_RECREATE env variable: '"
                            +:+ str +:+ "' to bool");
                   VError (NumError "ParseBool" str)]) w)).
Proof.
  intros Henv Hne Hnot.
  assert (Hstr : Os.Getenv "GOLDEN_FILES_RECREATE" (environ w) = str).
  { unfold Os.Getenv. rewrite Henv. reflexivity. }
  destruct t as [n].
  unfold Assert. rewrite (Assert_steps DefaultHandler _ data data w w) by reflexivity.
  apply bind_halted. unfold FileHandler_loadAndSaveFile.
  cbn [FileName ShouldRecreate DefaultHandler].
  rewrite (bind_returned _ _ _ _ _ (resolver_layout n w)).
  apply bind_halted.
  rewrite (ParseRecreateFromEnv_run {| name := n |} w). cbv zeta. rewrite Hstr.
  apply String.eqb_neq in Hne. rewrite Hne.
  replace (existsb (String.eqb str) ["1"; "t"; "T"; "TRUE"; "true"; "True"]) with false.
  2:{ symmetry. apply not_true_is_false. intros H. apply existsb_eqb_In in H.
      apply Hnot. cbn [In] in *. intuition. }
  replace (existsb (String.eqb str) ["0"; "f"; "F"; "FALSE"; "false"; "False"]) with false.
  2:{ symmetry. apply not_true_is_false. intros H. apply existsb_eqb_In in H.
      apply Hnot. cbn [In] in *. intuition. }
  reflexivity.
Qed.

(** The theorem where the golden file exists and matches, and
    GOLDEN_FILES_RECREATE is "yes". *)
Lemma Assert_malformed_environment_witness :
  Assert {| name := "TestSomeOtherString" |} "some string"
    {| files := files storedWorld;
       environ := {["GOLDEN_FILES_RECREATE" := "yes"]};
       reported := [] |}
  = (Halted,
     {| files := files storedWorld;
        environ := {["GOLDEN_FILES_RECREATE" := "yes"]};
        reported :=
          [Errored "%s: %s"
             [VString "failed to parse GOLDEN_FILES_RECREATE env variable: 'yes' to bool";
              VError (NumError "ParseBool" "yes")];
           FailedNow] |}).
Proof.
  etransitivity.
  - apply (Assert_malformed_environment {| name := "TestSomeOtherString" |}
             "some string" "yes"
             {| files := files storedWorld;
                environ := {["GOLDEN_FILES_RECREATE" := "yes"]};
                reported := [] |}).
    + reflexivity.
    + discriminate.
    + simpl. intuition discriminate.
  - reflexivity.
Defined.

(** The theorem with GOLDEN_FILES_RECREATE=T, which answers true without
    a report. *)
Lemma ParseRecreateFromEnv_true_iff_witness :
  fst (ParseRecreateFromEnv {| name := "Top" |}
         {| files := ∅; environ := {["GOLDEN_FILES_RECREATE" := "T"]}; reported := [] |})
  = Returned true.
Proof.
  apply (proj1 (ParseRecreateFromEnv_true_iff {| name := "Top" |}
                  {| files := ∅; environ := {["GOLDEN_FILES_RECREATE" := "T"]};
                     reported := [] |})).
  simpl. tauto.
Defined.

(** ** [Request], once more *)

(** X14: under recreation the result of [Request] is the comparison of
    the status codes alone.  With the default comparison and no
    transform, when the client answers without an error, the body reads
    to its end, the policy answers true and the file is written without
    an error, [Request] returns ok = true exactly when the status code
    is the expected one, and the golden file holds the body of the
    response. *)
Theorem Request_recreation
    (h : FileHandler) (t : T) (client : Client) (req : HTTPRequest)
    (expectedStatusCode : Z) (resp : Response) (fileName : string)
    (w w0 w2 w3 : World) (fs1 fs2 : gmap string node) :
  Do client req w = (Returned (resp, None), w0) ->
  failure (Body resp) = None ->
  ProcessContent h = None ->
  Equal h = EqualWithDiff ->
  FileName h t (statusChecked expectedStatusCode resp w0) = (Returned fileName, w2) ->
  ShouldRecreate h t w2 = (Returned true, w3) ->
  Os.MkdirAll (Filepath.Dir fileName) 0x1ed (files w3) = (None, fs1) ->
  Os.WriteFile fileName (unread (Body resp)) 0x180 fs1 = (None, fs2) ->
  exists (ok : bool) (w' : World),
    FileHandler_Request h t client req expectedStatusCode w =
      (Returned (setBody (NewReader (unread (Body resp))) resp, ok), w') /\
    (ok = true <-> StatusCode resp = expectedStatusCode) /\
    files w' = fs2 /\
    Os.ReadFile fileName (files w') = (unread (Body resp), None).
Proof.
  intros Hdo Hbody Hhook Hequal HfileName Hpolicy Hmkdir Hwrite.
  exists (Z.eqb (StatusCode resp) expectedStatusCode). eexists.
  split; [|split; [|split]].
  - rewrite (Request_steps h t client req _ resp w w0 Hdo Hbody).
    assert (FileHandler_Assert h t (unread (Body resp))
              (statusChecked expectedStatusCode resp w0)
            = (Returned true,
               setFiles fs2
                 (report (Logged "recreating golden file: %s" [VString fileName]) w3)))
      as Hassert.
    { rewrite (Assert_steps h t _ (unread (Body resp)) _ _)
        by (unfold processContent; rewrite Hhook; reflexivity).
      rewrite (bind_returned _ _ _ _ _
                 (loadAndSaveFile_recreate h t _ fileName _ w2 w3 HfileName
                    fs1 fs2 Hpolicy Hmkdir Hwrite)).
      rewrite Hequal. apply EqualWithDiff_same. }
    rewrite (bind_returned _ _ _ _ _ Hassert). reflexivity.
  - apply Z.eqb_eq.
  - reflexivity.
  - cbn [files setFiles]. apply (ReadFile_WriteFile _ _ _ _ _ Hwrite).
Qed.

(** The theorem on the request of the package's test: status 400 as
    expected, body "bad request". *)
Lemma Request_recreation_witness :
  exists (ok : bool) (w' : World),
    FileHandler_Request (handlerWith (always true) None) {| name := "TestRequest" |}
      (serverClient 400 "bad request") getRequest 400 emptyWorld =
      (Returned ({| StatusCode := 400; Body := NewReader "bad request" |}, ok), w') /\
    (ok = true <-> 400%Z = 400%Z) /\
    files w' = <["testdata/TestRequest/TestRequest.golden" := RegularFile "bad request"]>
                 (<["testdata/TestRequest" := Directory]>
                    (<["testdata" := Directory]> ∅)) /\
    Os.ReadFile "testdata/TestRequest/TestRequest.golden" (files w')
    = ("bad request", None).
Proof.
  apply (Request_recreation (handlerWith (always true) None) {| name := "TestRequest" |}
           (serverClient 400 "bad request") getRequest 400
           {| StatusCode := 400; Body := NewReader "bad request" |}
           "testdata/TestRequest/TestRequest.golden"
           emptyWorld emptyWorld emptyWorld emptyWorld
           (<["testdata/TestRequest" := Directory]> (<["testdata" := Directory]> ∅)));
    try reflexivity; vm_compute; reflexivity.
Defined.

(** X15: when the body of the response cannot be read to its end,
    [Request] halts the test after the comparison of the status codes:
    it reports the read error through [Errorf] and calls [FailNow]; no
    strategy of the handler has run, and the file system and the
    environment are the ones the client left. *)
Theorem Request_body_read_failure
    (h : FileHandler) (t : T) (client : Client) (req : HTTPRequest)
    (expectedStatusCode : Z) (resp : Response) (e : error) (w w0 : World) :
  Do client req w = (Returned (resp, None), w0) ->
  failure (Body resp) = Some e ->
  exists w',
    FileHandler_Request h t client req expectedStatusCode w = (Halted, w') /\
    files w' = files w0 /\
    environ w' = environ w0 /\
    reported w' =
      reported (statusChecked expectedStatusCode resp w0) ++
      [Errored "%s: %s" [VString "reading response body failed"; VError e];
       FailedNow].
Proof.
  intros Hdo Hbody. eexists. split; [|split; [|split]].
  - apply (Request_body_error h t client req _ resp e w w0 Hdo Hbody).
  - unfold statusChecked. destruct (Z.eqb _ _); reflexivity.
  - unfold statusChecked. destruct (Z.eqb _ _); reflexivity.
  - cbn [reported report]. rewrite <- app_assoc. reflexivity.
Qed.

(** The theorem on a response with status 500 where 200 is expected,
    whose body breaks off. *)
Lemma Request_body_read_failure_witness :
  exists w',
    FileHandler_Request DefaultHandler {| name := "TestRequest" |}
      {| Do := fun _ =>
           mret ({| StatusCode := 500;
                    Body := {| unread := "partial";
                               failure := Some (OtherError "unexpected EOF") |} |},
                 None) |}
      getRequest 200 emptyWorld = (Halted, w') /\
    files w' = ∅ /\
    environ w' = ∅ /\
    reported w' =
      [Errored "expected status code %d, got %d" [VInt 200; VInt 500]] ++
      [Errored "%s: %s"
         [VString "reading response body failed";
          VError (OtherError "unexpected EOF")];
       FailedNow].
Proof.
  apply (Request_body_read_failure DefaultHandler {| name := "TestRequest" |}
           {| Do := fun _ =>
                mret ({| StatusCode := 500;
                         Body := {| unread := "partial";
                                    failure := Some (OtherError "unexpected EOF") |} |},
                      None) |}
           getRequest 200
           {| StatusCode := 500;
              Body := {| unread := "partial";
                         failure := Some (OtherError "unexpected EOF") |} |}
           (OtherError "unexpected EOF") emptyWorld emptyWorld);
    reflexivity.
Defined.

(** ** The earlier revision and the present one *)

Section Revisions.

Import Strings Filepath.

(** The cleaned spelling of the name that the earlier revision composes
    with [fmt.Sprintf]. *)
Lemma Clean_composed (top stem : string) :
  ContainsByte top "/" = false ->
  ContainsByte stem "/" = false ->
  Clean (("./testdata/" +:+ top) +:+ "/" +:+ stem +:+ ".golden") = layout top stem.
Proof.
  intros Htop Hstem.
  assert (Hfile : ContainsByte (stem +:+ ".golden") "/" = false).
  { rewrite ContainsByte_app, Hstem. reflexivity. }
  unfold Clean, Separator.
  change (IsRooted (("./testdata/" +:+ top) +:+ "/" +:+ stem +:+ ".golden")) with false.
  change (("./testdata/" +:+ top) +:+ "/" +:+ stem +:+ ".golden")
    with ("." +:+ String "/" ("testdata" +:+ String "/"
            (top +:+ String "/" (stem +:+ ".golden")))).
  rewrite !Split_sep by (assumption || reflexivity).
  rewrite (Split_nosep _ _ Hfile).
  cbn [cleanElems String.eqb Ascii.eqb Bool.eqb].
  rewrite !(golden_name_long stem) by (simpl; lia).
  unfold layout.
  destruct (String.eqb top "") eqn:E1; [cbn; reflexivity|].
  destruct (String.eqb top ".") eqn:E2; [cbn; reflexivity|].
  destruct (String.eqb top "..") eqn:E3.
  - cbn. rewrite golden_name_long by (simpl; lia). reflexivity.
  - cbn. reflexivity.
Qed.

(** The names that [layout] gives are clean. *)
Lemma Clean_layout (top stem : string) :
  ContainsByte top "/" = false ->
  ContainsByte stem "/" = false ->
  Clean (layout top stem) = layout top stem.
Proof.
  intros Htop Hstem.
  assert (Hfile : ContainsByte (stem +:+ ".golden") "/" = false).
  { rewrite ContainsByte_app, Hstem. reflexivity. }
  unfold layout.
  destruct (String.eqb top "") eqn:E1; [|destruct (String.eqb top ".") eqn:E2];
    cbn [orb].
  3: destruct (String.eqb top "..") eqn:E3.
  1, 2: unfold Clean, Separator;
    rewrite (Split_directory _ Hfile);
    change (IsRooted ("testdata/" +:+ stem +:+ ".golden")) with false;
    cbn [cleanElems String.eqb Ascii.eqb Bool.eqb];
    rewrite !(golden_name_long stem) by (simpl; lia); reflexivity.
  - unfold Clean, Separator. rewrite (Split_nosep _ _ Hfile).
    replace (IsRooted (stem +:+ ".golden")) with false.
    + cbn [cleanElems]. rewrite !(golden_name_long stem) by (simpl; lia).
      cbn [rev app Strings.Join]. rewrite ?(golden_name_long stem) by (simpl; lia).
      reflexivity.
    + destruct stem as [|c rest]; [reflexivity|].
      cbn [ContainsByte] in Hstem. apply orb_false_elim in Hstem as [Hc _].
      symmetry. exact Hc.
  - apply (Clean_resolved top (stem +:+ ".golden") Htop Hfile E1 E2 E3);
      apply golden_name_long; simpl; lia.
Qed.

(** [layout] on names without a space gives a name without a space. *)
Lemma layout_spaceless (top stem : string) :
  ReplaceAll (layout (ReplaceAll top " " "_") (ReplaceAll stem " " "_")) " " "_"
  = layout (ReplaceAll top " " "_") (ReplaceAll stem " " "_").
Proof.
  apply ReplaceAll_id. unfold layout.
  destruct (_ || _); [|destruct (String.eqb _ "..")];
    rewrite !ContainsByte_app, !ContainsByte_ReplaceAll by discriminate; reflexivity.
Qed.

(** The name the earlier revision composes and the one the present
    revision resolves have the same cleaned spelling. *)
Lemma same_clean_name (top stem : string) :
  ContainsByte top "/" = false ->
  ContainsByte stem "/" = false ->
  Clean (ReplaceAll (("./testdata/" +:+ top) +:+ "/" +:+ stem +:+ ".golden") " " "_")
  = Clean (ReplaceAll (layout top stem) " " "_").
Proof.
  intros Htop Hstem.
  assert (Htop' : ContainsByte (ReplaceAll top " " "_") "/" = false)
    by (rewrite ContainsByte_ReplaceAll_other by discriminate; exact Htop).
  assert (Hstem' : ContainsByte (ReplaceAll stem " " "_") "/" = false)
    by (rewrite ContainsByte_ReplaceAll_other by discriminate; exact Hstem).
  rewrite <- (layout_spaces top stem), layout_spaceless.
  rewrite (Clean_layout _ _ Htop' Hstem').
  rewrite <- (Clean_composed _ _ Htop' Hstem').
  rewrite !ReplaceAll_app. reflexivity.
Qed.

End Revisions.

(** The read of a file in terms of its cleaned name. *)
Lemma ReadFile_cases (fileName : string) (fs : gmap string node) :
  (exists content,
      Os.entry fs (Filepath.Clean fileName) = Some (RegularFile content) /\
      Os.ReadFile fileName fs = (content, None)) \/
  ((forall content, Os.entry fs (Filepath.Clean fileName) <> Some (RegularFile content)) /\
   exists e, Os.ReadFile fileName fs = ("", Some e)).
Proof.
  unfold Os.ReadFile, Os.stat.
  destruct (Os.entry fs (Filepath.Clean fileName)) as [[|content]|].
  - right. split; [discriminate|eauto].
  - left. eauto.
  - right. split; [discriminate|]. destruct (existsb _ _); eauto.
Qed.

(** What the two revisions do without recreation, side by side: the
    names they read differ in spelling only. *)
Lemma revisions_read (n data : string) (w : World) :
  exists top stem,
    Strings.ContainsByte top "/" = false /\
    Strings.ContainsByte stem "/" = false /\
    FileHandler_loadAndSaveFile (handlerWith (always false) None) {| name := n |} data w
    = match Os.ReadFile (Strings.ReplaceAll (layout top stem) " " "_") (files w) with
      | (b, None) => (Returned b, w)
      | (_, Some e) =>
          (Halted, report FailedNow
                     (report (Errored "%s: %s"
                                [VString "failed to read golden file"; VError e]) w))
      end /\
    Legacy.file {| name := n |} data false w
    = match Os.ReadFile
              (Strings.ReplaceAll
                 (("./testdata/" +:+ top) +:+ "/" +:+ stem +:+ ".golden") " " "_")
              (files w) with
      | (b, None) => (Returned b, w)
      | (_, Some e) =>
          (Halted, report FailedNow
                     (report (Errored "\n%s"
                                [VError e; VString "failed to read golden file"]) w))
      end.
Proof.
  destruct (identifier_cases n) as [Hn | (top & rest & -> & Htop)].
  - exists n, n. repeat split; try assumption.
    + apply (loadAndSaveFile_read _ _ _ _ w w w); [|reflexivity].
      apply (resolver_flat n w Hn).
    + unfold Legacy.file, ReadFile. run. cbn [name].
      rewrite (SplitN2_nosep n "/" Hn).
      destruct (Os.ReadFile _ (files w)) as [b [e|]]; reflexivity.
  - exists top, (Strings.ReplaceAll rest "/" "_").
    assert (Hstem : Strings.ContainsByte (Strings.ReplaceAll rest "/" "_") "/" = false)
      by (apply ContainsByte_ReplaceAll; discriminate).
    repeat split; try assumption.
    + apply (loadAndSaveFile_read _ _ _ _ w w w); [|reflexivity].
      apply (resolver_nested top rest w Htop).
    + unfold Legacy.file, ReadFile. run. cbn [name].
      rewrite (SplitN2_sep top rest "/" Htop).
      destruct (Os.ReadFile _ (files w)) as [b [e|]]; reflexivity.
Qed.

(** X17: both revisions read the same golden file.  For every
    identifier whose top-level name is not [..], so that neither name
    holds a [..] element, without recreation the earlier [file] returns
    a content exactly when [loadAndSaveFile] with the default resolver
    returns it, and both leave the world as it was: the name composed
    with [fmt.Sprintf] and the one joined with [filepath.Join] differ
    by the leading [./], doubled separators and [.] elements only. *)
Theorem Legacy_file_reads_same_file (t : T) (data content : string) (w w' : World) :
  TopLevelName (name t) <> ".." ->
  Legacy.file t data false w = (Returned content, w') <->
  FileHandler_loadAndSaveFile (handlerWith (always false) None) t data w
  = (Returned content, w').
Proof.
  intros _. destruct t as [n].
  destruct (revisions_read n data w) as (top & stem & Htop & Hstem & Hnew & Hold).
  rewrite Hnew, Hold.
  pose proof (same_clean_name top stem Htop Hstem) as Hclean.
  destruct (ReadFile_cases
              (Strings.ReplaceAll
                 (("./testdata/" +:+ top) +:+ "/" +:+ stem +:+ ".golden") " " "_")
              (files w)) as [(c1 & He1 & ->)|(Hn1 & e1 & ->)];
    destruct (ReadFile_cases (Strings.ReplaceAll (layout top stem) " " "_") (files w))
      as [(c2 & He2 & ->)|(Hn2 & e2 & ->)].
  - rewrite Hclean in He1. rewrite He1 in He2. injection He2 as ->. reflexivity.
  - rewrite Hclean in He1. exfalso. apply (Hn2 _ He1).
  - rewrite <- Hclean in He2. exfalso. apply (Hn1 _ He2).
  - split; discriminate.
Qed.

(** The theorem on the golden file of "TestSomeOtherString": the
    earlier revision reads "some string" as the present one does. *)
Lemma Legacy_file_reads_same_file_witness :
  FileHandler_loadAndSaveFile (handlerWith (always false) None)
    {| name := "TestSomeOtherString" |} "data" storedWorld
  = (Returned "some string", storedWorld).
Proof.
  assert (Hordinary : TopLevelName (name {| name := "TestSomeOtherString" |}) <> "..")
    by (vm_compute; discriminate).
  apply (proj1 (Legacy_file_reads_same_file {| name := "TestSomeOtherString" |}
                  "data" "some string" storedWorld storedWorld Hordinary)).
  vm_compute. reflexivity.
Defined.

(** ** The package-level [Request] *)

Lemma statusChecked_frame (expectedStatusCode : Z) (resp : Response) (w : World) :
  files (statusChecked expectedStatusCode resp w) = files w /\
  environ (statusChecked expectedStatusCode resp w) = environ w.
Proof. unfold statusChecked. destruct (Z.eqb _ _); split; reflexivity. Qed.

(** X16: the package-level [Request] needs the golden file.  When the
    client answers without an error, GOLDEN_FILES_RECREATE is unset and
    nothing exists at the resolved path, [Request] halts the test on
    the failed [open] of that path, whether the status code is the
    expected one or not, and no response is returned. *)
Theorem Request_missing_golden_file
    (t : T) (client : Client) (req : HTTPRequest) (expectedStatusCode : Z)
    (resp : Response) (fileName : string) (w w0 : World) :
  Do client req w = (Returned (resp, None), w0) ->
  failure (Body resp) = None ->
  environ w0 !! "GOLDEN_FILES_RECREATE" = None ->
  fst (TestNameToFilePath t w0) = Returned fileName ->
  Os.stat (files w0) fileName = None ->
  exists errno,
    Request t client req expectedStatusCode w =
      (Halted,
       report FailedNow
         (report (Errored "%s: %s"
                    [VString "failed to read golden file";
                     VError (PathError "open" fileName errno)])
            (statusChecked expectedStatusCode resp w0))).
Proof.
  intros Hdo Hbody Henv Hname Hmissing.
  destruct (statusChecked_frame expectedStatusCode resp w0) as [Hfiles Henviron].
  set (w1 := statusChecked expectedStatusCode resp w0) in *.
  rewrite <- Hfiles in Hmissing.
  destruct (ReadFile_missing fileName (files w1) Hmissing) as [errno Hread].
  exists errno. unfold Request.
  rewrite (Request_steps DefaultHandler t client req _ resp w w0 Hdo Hbody).
  fold w1. apply bind_halted.
  rewrite (Assert_steps DefaultHandler t _ (unread (Body resp)) w1 w1) by reflexivity.
  apply bind_halted.
  assert (HfileName : FileName DefaultHandler t w1 = (Returned fileName, w1)).
  { cbn [FileName DefaultHandler].
    rewrite (TestNameToFilePath_frame t w0 w1), Hname. reflexivity. }
  assert (Hpolicy : ShouldRecreate DefaultHandler t w1 = (Returned false, w1)).
  { cbn [ShouldRecreate DefaultHandler].
    rewrite (ParseRecreateFromEnv_run t w1). cbv zeta.
    unfold Os.Getenv. rewrite Henviron, Henv. reflexivity. }
  rewrite (loadAndSaveFile_read DefaultHandler t _ fileName w1 w1 w1 HfileName Hpolicy).
  rewrite Hread. reflexivity.
Qed.

(** The theorem on the request of the package's test, in the empty
    world: the status code is the expected one, the golden file is
    missing. *)
Lemma Request_missing_golden_file_witness :
  exists errno,
    Request {| name := "TestRequest" |} (serverClient 400 "bad request") getRequest 400
      emptyWorld =
      (Halted,
       report FailedNow
         (report (Errored "%s: %s"
                    [VString "failed to read golden file";
                     VError (PathError "open" "testdata/TestRequest/TestRequest.golden"
                               errno)])
            (statusChecked 400 {| StatusCode := 400; Body := NewReader "bad request" |}
               emptyWorld))).
Proof.
  apply (Request_missing_golden_file {| name := "TestRequest" |}
           (serverClient 400 "bad request") getRequest 400
           {| StatusCode := 400; Body := NewReader "bad request" |}
           "testdata/TestRequest/TestRequest.golden" emptyWorld emptyWorld);
    reflexivity.
Defined.

(** ** What a recreation leaves alone *)

(** [MkdirAll] keeps every entry that exists. *)
Lemma mkdirChain_preserves (dirs : list string) (fs fs' : gmap string node)
    (r : option error) (k : string) (v : node) :
  Os.mkdirChain dirs fs = (r, fs') -> fs !! k = Some v -> fs' !! k = Some v.
Proof.
  revert fs. induction dirs as [|d dirs IH]; intros fs; cbn [Os.mkdirChain].
  - intros [= _ <-]. trivial.
  - destruct (fs !! d) as [[|c]|] eqn:Hd.
    + apply IH.
    + intros [= _ <-]. trivial.
    + intros Hrun Hk. apply (IH _ Hrun).
      rewrite lookup_insert_ne; [exact Hk|]. intros ->. congruence.
Qed.

(** [WriteFile] changes the entry of the file at most. *)
Lemma WriteFile_preserves (fileName data : string) (perm : Z) (r : option error)
    (fs fs' : gmap string node) (k : string) :
  Os.WriteFile fileName data perm fs = (r, fs') ->
  k <> Filepath.Clean fileName -> fs' !! k = fs !! k.
Proof.
  unfold Os.WriteFile. intros Hrun Hk.
  destruct (Os.entry fs (Filepath.Dir (Filepath.Clean fileName))) as [[|?]|];
    [|congruence|congruence].
  destruct (Os.entry fs (Filepath.Clean fileName)) as [[|?]|];
    injection Hrun as _ <-; try reflexivity;
    apply lookup_insert_ne; congruence.
Qed.

(** X18: a recreation destroys nothing else.  With the default
    comparison, when the policy answers true, whatever the outcome of
    [Assert] (returned or halted on a failed [MkdirAll] or [WriteFile]),
    every entry of the file system other than the golden file itself is
    still there afterwards, with its content. *)
Theorem Assert_recreation_preserves
    (h : FileHandler) (t : T) (data processed fileName : string)
    (w w1 w2 w3 : World) (k : string) (v : node) :
  Equal h = EqualWithDiff ->
  processContent h t data w = (Returned processed, w1) ->
  FileName h t w1 = (Returned fileName, w2) ->
  ShouldRecreate h t w2 = (Returned true, w3) ->
  k <> Filepath.Clean fileName ->
  files w3 !! k = Some v ->
  files (snd (FileHandler_Assert h t data w)) !! k = Some v.
Proof.
  intros Hequal Hprocess HfileName Hpolicy Hk Hentry.
  rewrite (Assert_steps h t data processed w w1 Hprocess).
  destruct (Os.MkdirAll (Filepath.Dir fileName) 0x1ed (files w3)) as [[e|] fs1] eqn:Hmkdir.
  - rewrite (bind_halted _ _ _ _
               (loadAndSaveFile_mkdir_error h t processed fileName w1 w2 w3
                  HfileName Hpolicy e fs1 Hmkdir)).
    cbn [snd files report setFiles].
    apply (mkdirChain_preserves _ _ _ _ _ _ Hmkdir Hentry).
  - pose proof (mkdirChain_preserves _ _ _ _ _ _ Hmkdir Hentry) as Hentry1.
    destruct (Os.WriteFile fileName processed 0x180 fs1) as [[e|] fs2] eqn:Hwrite.
    + rewrite (bind_halted _ _ _ _
                 (loadAndSaveFile_write_error h t processed fileName w1 w2 w3
                    HfileName Hpolicy e fs1 fs2 Hmkdir Hwrite)).
      cbn [snd files report setFiles].
      rewrite (WriteFile_preserves _ _ _ _ _ _ k Hwrite Hk). exact Hentry1.
    + rewrite (bind_returned _ _ _ _ _
                 (loadAndSaveFile_recreate h t processed fileName w1 w2 w3 HfileName
                    fs1 fs2 Hpolicy Hmkdir Hwrite)).
      rewrite Hequal, EqualWithDiff_same. cbn [snd files setFiles].
      rewrite (WriteFile_preserves _ _ _ _ _ _ k Hwrite Hk). exact Hentry1.
Qed.

(** The theorem on the test "TestFunc/subtest" where [testdata] holds
    another file, which is still there after the recreation. *)
Lemma Assert_recreation_preserves_witness :
  files (snd (FileHandler_Assert (handlerWith (always true) None)
                {| name := "TestFunc/subtest" |} "other data"
                {| files := <["testdata/notes.txt" := RegularFile "keep"]>
                              (<["testdata" := Directory]> ∅);
                   environ := ∅; reported := [] |}))
    !! "testdata/notes.txt" = Some (RegularFile "keep").
Proof.
  apply (Assert_recreation_preserves (handlerWith (always true) None)
           {| name := "TestFunc/subtest" |} "other data" "other data"
           "testdata/TestFunc/subtest.golden"
           {| files := <["testdata/notes.txt" := RegularFile "keep"]>
                         (<["testdata" := Directory]> ∅);
              environ := ∅; reported := [] |}
           {| files := <["testdata/notes.txt" := RegularFile "keep"]>
                         (<["testdata" := Directory]> ∅);
              environ := ∅; reported := [] |}
           {| files := <["testdata/notes.txt" := RegularFile "keep"]>
                         (<["testdata" := Directory]> ∅);
              environ := ∅; reported := [] |}
           {| files := <["testdata/notes.txt" := RegularFile "keep"]>
                         (<["testdata" := Directory]> ∅);
              environ := ∅; reported := [] |});
    try reflexivity; vm_compute; discriminate.
Defined.
